(** * Mirascope call pipeline: a shallow embedding and its properties

  The development follows the Python sources module by module:
  - [Py]              exceptions, truthiness, list indexing, [str.strip];
  - [CallFactory]     [mirascope/core/base/_call_factory.py];
  - [Message]         the content parts of a neutral message;
  - [Mistral]         [mirascope/core/mistral/_utils/*.py];
  - [Vertex]          [mirascope/core/vertex/_utils/_setup_call.py];
  - [ChatTypes]       [mirascope/chat/types.py];
  - [OpenAIChunk], [CohereChunk]
                      [mirascope/core/{openai,cohere}/call_response_chunk.py];
  - [Stream]          the stream coordinator exercised by
                      [tests/core/mistral/test_stream.py];
  - [Scenario]        concrete responses.
  The properties come after the definitions, in the same order.

  Python dictionaries are finite maps ([gmap]) keyed by strings, Python
  exceptions are the [Raise] outcome of a small error monad, and [None]
  is the [None] of an [option].  A property or function whose body reads
  an index or an attribute that may be missing is a computation in that
  monad, so that "does not raise" is a statement to prove. *)

From stdpp Require Import base option list strings gmap fin_maps.

Set Default Proof Using "Type".

(* ===================================================================== *)
(** * Python preliminaries                                                *)
(* ===================================================================== *)

Module Py.

(** The exceptions the modelled code can raise. *)
Inductive exn : Type :=
| ValueError (msg : string)
| AssertionError (msg : string)
| IndexError
| TypeError
| AttributeError
| KeyError (key : string)
| ValidationError (detail : string).

(** A computation either returns a value or raises. *)
Inductive result (A : Type) : Type :=
| Ok (a : A)
| Raise (e : exn).
Global Arguments Ok {A} a.
Global Arguments Raise {A} e.

Global Instance result_ret : MRet result := fun _ a => Ok a.
Global Instance result_bind : MBind result := fun _ _ f m =>
  match m with
  | Ok a => f a
  | Raise e => Raise e
  end.

Definition returns {A} (m : result A) : Prop := ∃ a, m = Ok a.
Definition raises {A} (m : result A) : Prop := ∃ e, m = Raise e.

(** Truthiness of the values the code tests with [if x] / [not x]. *)
Definition truthy_list {A} (l : list A) : bool :=
  match l with [] => false | _ :: _ => true end.

(** [Optional[list]]: both [None] and [[]] are falsy. *)
Definition truthy_opt_list {A} (l : option (list A)) : bool :=
  match l with Some (_ :: _) => true | _ => false end.

(** An optional object whose class defines neither [__bool__] nor
    [__len__] (a function, a class, a pydantic model): falsy only when
    it is [None]. *)
Definition truthy_obj {A} (o : option A) : bool :=
  match o with Some _ => true | None => false end.

Definition truthy_str (s : string) : bool :=
  match s with EmptyString => false | String _ _ => true end.

(** [l[0]] *)
Definition index0 {A} (l : list A) : result A :=
  match l with
  | x :: _ => Ok x
  | [] => Raise IndexError
  end.

(** [l[-1]] *)
Definition index_last {A} (l : list A) : result A :=
  match last l with
  | Some x => Ok x
  | None => Raise IndexError
  end.

(** [o.attr] where [o] may be [None]: reading an attribute of [None]
    raises. *)
Definition deref {A} (o : option A) : result A :=
  match o with
  | Some a => Ok a
  | None => Raise AttributeError
  end.

(** [l[-1] = x] on a non-empty list; the caller has read [l[-1]] first. *)
Definition set_last {A} (l : list A) (x : A) : list A :=
  match l with
  | [] => []
  | _ :: _ => removelast l ++ [x]
  end.

(** Whitespace in the sense of [str.isspace], for code points below 256. *)
Definition isspace (c : Ascii.ascii) : bool :=
  let n := Ascii.nat_of_ascii c in
  ((9 <=? n) && (n <=? 13)) || ((28 <=? n) && (n <=? 32))
  || (n =? 133) || (n =? 160).

Fixpoint lstrip (s : string) : string :=
  match s with
  | String c s' => if isspace c then lstrip s' else s
  | EmptyString => EmptyString
  end.

Fixpoint rstrip (s : string) : string :=
  match s with
  | EmptyString => EmptyString
  | String c s' =>
      match rstrip s' with
      | EmptyString => if isspace c then EmptyString else String c EmptyString
      | r => String c r
      end
  end.

(** [s.strip()] *)
Definition strip (s : string) : string := rstrip (lstrip s).

(** [str(o)]: the builtin hands back what [o.__str__()] returns, and raises
    when that is not a string. *)
Definition builtin_str (returned : option string) : result string :=
  match returned with
  | Some s => Ok s
  | None => Raise TypeError
  end.

End Py.
Import Py.

(* ===================================================================== *)
(** * The call factory                                                    *)
(* ===================================================================== *)

Module CallFactory.
Section base_call.

(** The provider plug-ins [call_factory] closes over are opaque here:
    [base_call] only passes them on to the four mode factories. *)
Variables Tool ResponseModel OutputParser Client CallParams : Type.
Variable default_call_params : CallParams.

(** What [base_call] returns: one of the four factories, partially
    applied to the decorator arguments ([functools.partial]). *)
Inductive decorator : Type :=
| structured_stream_factory
    (model : string) (response_model : ResponseModel) (json_mode : bool)
    (client : option Client) (call_params : CallParams)
| extract_factory
    (model : string) (response_model : ResponseModel)
    (output_parser : option OutputParser) (json_mode : bool)
    (client : option Client) (call_params : CallParams)
| stream_factory
    (model : string) (tools : option (list Tool)) (json_mode : bool)
    (client : option Client) (call_params : CallParams)
| create_factory
    (model : string) (tools : option (list Tool))
    (output_parser : option OutputParser) (json_mode : bool)
    (client : option Client) (call_params : CallParams).

Definition stream_output_parser_msg : string :=
  "Cannot use `output_parser` with `stream=True`.".

Definition base_call
    (model : string) (stream : bool) (tools : option (list Tool))
    (response_model : option ResponseModel)
    (output_parser : option OutputParser) (json_mode : bool)
    (client : option Client) (call_params : option CallParams)
  : result decorator :=
  if stream && truthy_obj output_parser then
    Raise (ValueError stream_output_parser_msg)
  else
    let call_params :=
      match call_params with
      | None => default_call_params
      | Some cp => cp
      end in
    match response_model with
    | Some response_model =>
        if stream then
          Ok (structured_stream_factory
                model response_model json_mode client call_params)
        else
          Ok (extract_factory
                model response_model output_parser json_mode client
                call_params)
    | None =>
        if stream then
          Ok (stream_factory model tools json_mode client call_params)
        else
          Ok (create_factory
                model tools output_parser json_mode client call_params)
    end.

End base_call.
End CallFactory.

(* ===================================================================== *)
(** * Messages                                                            *)
(* ===================================================================== *)

Module Message.

(** Modelled from the spec: the content parts of a neutral message
    ([mirascope/core/base/message_param.py] is not part of the sources at
    hand; spec section 3 gives the variants).  The converters only read a
    part's [type] tag and, for text parts, its [text]. *)
Inductive part : Type :=
| TextPart (text : string)
| ImagePart (data : string) (media_type : string)
| ToolCallPart (id : string) (name : string) (arguments : string)
| ToolResultPart (id : string) (value : string).

(** [part.type] *)
Definition part_type (p : part) : string :=
  match p with
  | TextPart _ => "text"
  | ImagePart _ _ => "image"
  | ToolCallPart _ _ _ => "tool_call"
  | ToolResultPart _ _ => "tool_result"
  end.

(** [part.text]: only text parts have the attribute. *)
Definition part_text (p : part) : result string :=
  match p with
  | TextPart text => Ok text
  | _ => Raise AttributeError
  end.

(** [BaseMessageParam.content]: [str | Sequence[part]] *)
Inductive content : Type :=
| Str (s : string)
| Parts (ps : list part).

End Message.

(* ===================================================================== *)
(** * Mistral                                                             *)
(* ===================================================================== *)

Module Mistral.
Import Message.

(** The message classes of the Mistral SDK; each fixes its [role]. *)
Inductive native_kind : Type :=
| AssistantMessage | SystemMessage | ToolMessage | UserMessage.

Definition native_role (k : native_kind) : string :=
  match k with
  | AssistantMessage => "assistant"
  | SystemMessage => "system"
  | ToolMessage => "tool"
  | UserMessage => "user"
  end.

(** What [convert_message_params] receives: neutral messages and SDK
    messages mixed.  SDK messages are modelled with text content, the only
    form [setup_call]'s [content += json_mode_content] is meant for. *)
Inductive message_param : Type :=
| BaseMessageParam (role : string) (content : content)
| Native (kind : native_kind) (text : string).

(** What it returns: every element now carries plain text. *)
Inductive message : Type :=
| TextMessage (role : string) (content : string)
| NativeMessage (kind : native_kind) (content : string).

Definition role (m : message) : string :=
  match m with
  | TextMessage r _ => r
  | NativeMessage k _ => native_role k
  end.

Definition content_of (m : message) : string :=
  match m with
  | TextMessage _ c => c
  | NativeMessage _ c => c
  end.

(** [m.content += s] *)
Definition add_content (m : message) (s : string) : message :=
  match m with
  | TextMessage r c => TextMessage r (c +:+ s)
  | NativeMessage k c => NativeMessage k (c +:+ s)
  end.

Definition text_parts_only_msg : string :=
  "Mistral currently only supports text parts.".

(** One iteration of the loop of [convert_message_params]. *)
Definition convert_message_param (message_param : message_param)
  : result message :=
  match message_param with
  | Native k c => Ok (NativeMessage k c)
  | BaseMessageParam r (Str s) => Ok (TextMessage r s)
  | BaseMessageParam r (Parts content) =>
      if negb (length content =? 1)
         || negb (bool_decide
                    ((part_type <$> content !! 0) = Some "text")) then
        Raise (ValueError text_parts_only_msg)
      else
        p ← index0 content;
        text ← part_text p;
        Ok (TextMessage r text)
  end.

(** The loop itself, with its accumulator [converted_message_params]. *)
Fixpoint convert_loop (converted_message_params : list message)
    (message_params : list message_param) : result (list message) :=
  match message_params with
  | [] => Ok converted_message_params
  | message_param :: rest =>
      m ← convert_message_param message_param;
      convert_loop (converted_message_params ++ [m]) rest
  end.

Definition convert_message_params (message_params : list message_param)
  : result (list message) :=
  convert_loop [] message_params.

(** The vocabulary of the conversion's contract: a neutral message is
    [unsupported] when its content is a part list other than exactly one
    text part; [converts_to] relates a supported message to the text
    message that carries all of its content. *)
Definition unsupported (mp : message_param) : bool :=
  match mp with
  | BaseMessageParam _ (Parts [TextPart _]) => false
  | BaseMessageParam _ (Parts _) => true
  | BaseMessageParam _ (Str _) => false
  | Native _ _ => false
  end.

Inductive converts_to : message_param → message → Prop :=
| converts_native k c :
    converts_to (Native k c) (NativeMessage k c)
| converts_str r s :
    converts_to (BaseMessageParam r (Str s)) (TextMessage r s)
| converts_single_text r t :
    converts_to (BaseMessageParam r (Parts [TextPart t])) (TextMessage r t).

(** The role of an incoming message, and a converted message read again
    as an incoming one (a [BaseMessageParam] with string content, or the
    SDK message it was). *)
Definition param_role (mp : message_param) : string :=
  match mp with
  | BaseMessageParam r _ => r
  | Native k _ => native_role k
  end.

Definition as_message_param (m : message) : message_param :=
  match m with
  | TextMessage r c => BaseMessageParam r (Str c)
  | NativeMessage k c => Native k c
  end.

(** ** [_convert_common_params.py] *)

Definition MISTRAL_PARAM_MAPPING : gmap string string :=
  {[ "temperature" := "temperature";
     "max_tokens" := "max_tokens";
     "top_p" := "top_p";
     "seed" := "random_seed";
     "stop" := "stop" ]}.

(** The contract's vocabulary: the recognised keys and their renaming. *)
Definition recognised : list string :=
  ["temperature"; "max_tokens"; "top_p"; "seed"; "stop"].

Definition renamed (key : string) : string :=
  if bool_decide (key = "seed") then "random_seed" else key.

Section common_params.

(** The values of a call-params dictionary; [None] is Python's [None]. *)
Variable V : Type.

(** The body of the dictionary comprehension for one item. *)
Definition convert_item (item : string * option V) : option (string * V) :=
  let '(key, value) := item in
  match MISTRAL_PARAM_MAPPING !! key, value with
  | Some key', Some v => Some (key', v)
  | _, _ => None
  end.

Definition convert_common_params (common_params : gmap string (option V))
  : gmap string V :=
  list_to_map (omap convert_item (map_to_list common_params)).

End common_params.

(** ** [_setup_call.py] *)

Section setup_call.

(** Opaque collaborators: the decorated function and its arguments, the
    tool classes, the SDK client, and the values the base setup puts into
    the call kwargs (call parameters, tool schemas). *)
Variables Fn FnArgs DynamicConfig Tool ToolType CallParams Client V : Type.

Inductive kwarg : Type :=
| KBase (v : V)
| KResponseFormat (type : string)
| KToolChoice (choice : string)
| KModel (model : string)
| KMessages (messages : list message).

(** [_utils.setup_call], [_utils.json_mode_content] and [fn_is_async] live
    in [mirascope/core/base/_utils], outside the sources at hand, and
    [Mistral(api_key=...)] in the SDK: they are parameters. *)
Variable utils_setup_call :
  Fn → FnArgs → DynamicConfig → option (list Tool) → CallParams →
  option string * list message_param * option (list ToolType)
  * gmap string kwarg.
Variable json_mode_content : option ToolType → string.
Variable fn_is_async : Fn → bool.
Variable Mistral_client : string → Client.

Inductive create_fn : Type :=
| get_create_fn (client : Client)
| get_async_create_fn (client : Client).

Record setup : Type := Setup {
  create_or_stream : create_fn;
  prompt_template : option string;
  messages : list message;
  tool_types : option (list ToolType);
  call_kwargs : gmap string kwarg;
}.

Definition extraction_assert_msg : string :=
  "At least one tool must be provided for extraction.".

(** [tool_types[0] if tool_types else None] *)
Definition first_tool (tool_types : option (list ToolType))
  : option ToolType :=
  match tool_types with
  | Some (t :: _) => Some t
  | _ => None
  end.

(** The [if json_mode: ... elif extract: ...] statement, acting on the
    pair of variables [messages], [call_kwargs]. *)
Definition mode_branch (json_mode extract : bool)
    (tool_types : option (list ToolType))
    (messages : list message) (call_kwargs : gmap string kwarg)
  : result (list message * gmap string kwarg) :=
  if json_mode then
    let call_kwargs :=
      <["response_format" := KResponseFormat "json_object"]> call_kwargs in
    let json_mode_content := json_mode_content (first_tool tool_types) in
    last_message ← index_last messages;
    let messages :=
      if bool_decide (role last_message = "user") then
        set_last messages (add_content last_message json_mode_content)
      else
        messages ++ [NativeMessage UserMessage (strip json_mode_content)] in
    Ok (messages, delete "tools" call_kwargs)
  else if extract then
    if truthy_opt_list tool_types then
      Ok (messages, <["tool_choice" := KToolChoice "any"]> call_kwargs)
    else
      Raise (AssertionError extraction_assert_msg)
  else
    Ok (messages, call_kwargs).

(** The reading of forced extraction as a selection: the forced tool
    choice written into the kwargs names the tool to call. *)
Definition selects_tool (call_kwargs : gmap string kwarg)
    (tool_name : string) : Prop :=
  call_kwargs !! "tool_choice" = Some (KToolChoice tool_name).

Definition setup_call (environ : gmap string string)
    (model : string) (client : option Client) (fn : Fn) (fn_args : FnArgs)
    (dynamic_config : DynamicConfig) (tools : option (list Tool))
    (json_mode : bool) (call_params : CallParams) (extract : bool)
  : result setup :=
  let '(prompt_template, messages, tool_types, base_call_kwargs) :=
    utils_setup_call fn fn_args dynamic_config tools call_params in
  let call_kwargs := base_call_kwargs in
  messages ← convert_message_params messages;
  '(messages, call_kwargs) ←
    mode_branch json_mode extract tool_types messages call_kwargs;
  let call_kwargs :=
    <["messages" := KMessages messages]>
      (<["model" := KModel model]> call_kwargs) in
  let client :=
    match client with
    | None => Mistral_client (default "" (environ !! "MISTRAL_API_KEY"))
    | Some c => c
    end in
  let create_or_stream :=
    if fn_is_async fn then get_async_create_fn client
    else get_create_fn client in
  Ok (Setup create_or_stream prompt_template messages tool_types
        call_kwargs).

End setup_call.

End Mistral.

(* ===================================================================== *)
(** * Vertex                                                              *)
(* ===================================================================== *)

Module Vertex.

Section setup_call.

Variables Fn FnArgs DynamicConfig Tool ToolType CallParams Client : Type.
(** Neutral messages, SDK part objects and pass-through kwarg values. *)
Variables MessageParam Part V : Type.

(** An element of a [Content]'s ["parts"]: an SDK part, or a bare string
    such as the one JSON mode appends. *)
Inductive part : Type :=
| PartObj (p : Part)
| PartStr (s : string).

(** A turn of the converted conversation.  The signature declares the
    SDK's class, [Content(role=..., parts=[...])], whose parts are SDK
    parts; the code subscripts the last turn, which only the dictionary
    form [{"role": ..., "parts": [...]}] supports.  The converter being
    outside the sources at hand, both shapes can reach the setup. *)
Inductive content : Type :=
| ContentDict (role : string) (parts : list part)
| Content (role : string) (parts : list Part).

Definition role (m : content) : string :=
  match m with
  | ContentDict r _ => r
  | Content r _ => r
  end.

Definition parts (m : content) : list part :=
  match m with
  | ContentDict _ ps => ps
  | Content _ ps => PartObj <$> ps
  end.

(** [m["parts"]]: an instance of [Content] is not subscriptable. *)
Definition getitem_parts (m : content) : result (list part) :=
  match m with
  | ContentDict _ ps => Ok ps
  | Content _ _ => Raise TypeError
  end.

(** A value stored in a generation config. *)
Inductive config_value : Type :=
| CStr (s : string)
| COther (v : V).

Inductive kwarg : Type :=
| KBase (v : V)
| KGenerationConfigDict (fields : gmap string config_value)
| KGenerationConfigDataclass (fields : gmap string config_value)
| KToolConfig (mode : string) (allowed_function_names : list string)
| KContents (messages : list content).

(** Collaborators outside the sources at hand, taken as parameters:
    [_utils.setup_call], [_utils.json_mode_content], [fn_is_async], the
    provider's own [convert_message_params], the tool classes' [_name()]
    and the SDK constructor [GenerativeModel(model_name=...)]. *)
Variable utils_setup_call :
  Fn → FnArgs → DynamicConfig → option (list Tool) → CallParams →
  option string * list MessageParam * option (list ToolType)
  * gmap string kwarg.
Variable json_mode_content : option ToolType → string.
Variable fn_is_async : Fn → bool.
Variable convert_message_params : list MessageParam → result (list content).
Variable _name : ToolType → string.
Variable GenerativeModel : string → Client.

Inductive create_fn : Type :=
| get_create_fn (client : Client)
| get_async_create_fn (client : Client).

Record setup : Type := Setup {
  create : create_fn;
  prompt_template : option string;
  messages : list content;
  tool_types : option (list ToolType);
  call_kwargs : gmap string kwarg;
}.

Definition extraction_assert_msg : string :=
  "At least one tool must be provided for extraction.".

(** [tool_types[0] if tool_types else None] *)
Definition first_tool (tool_types : option (list ToolType))
  : option ToolType :=
  match tool_types with
  | Some (t :: _) => Some t
  | _ => None
  end.

(** [generation_config = call_kwargs.get("generation_config", {})], then
    [asdict] for a dataclass, then the item assignment, which only a
    dictionary supports. *)
Definition json_generation_config (call_kwargs : gmap string kwarg)
  : result (gmap string config_value) :=
  generation_config ←
    match call_kwargs !! "generation_config" with
    | None => Ok ∅
    | Some (KGenerationConfigDataclass fields) => Ok fields
    | Some (KGenerationConfigDict fields) => Ok fields
    | Some _ => Raise TypeError
    end;
  Ok (<["response_mime_type" := CStr "application/json"]> generation_config).

(** The fields of the generation config found in the kwargs, when it is a
    dictionary or a dataclass; no field otherwise. *)
Definition base_generation_config (kw : gmap string kwarg)
  : gmap string config_value :=
  match kw !! "generation_config" with
  | Some (KGenerationConfigDict fields) => fields
  | Some (KGenerationConfigDataclass fields) => fields
  | _ => ∅
  end.

(** [m["parts"].append(s)]: the list held by the dictionary grows by one
    element. *)
Definition append_part (m : content) (s : string) : result content :=
  ps ← getitem_parts m;
  Ok (ContentDict (role m) (ps ++ [PartStr s])).

(** The member names of the SDK's enum
    [ToolConfig.FunctionCallingConfig.Mode]. *)
Definition FunctionCallingConfig_Mode : list string :=
  ["MODE_UNSPECIFIED"; "AUTO"; "ANY"; "NONE"].

(** [ToolConfig(function_calling_config=ToolConfig.FunctionCallingConfig(
    mode=..., allowed_function_names=...))]: the SDK resolves a mode given
    as a string by member name, and raises [KeyError] for a string that is
    no member name. *)
Definition ToolConfig (mode : string) (allowed_function_names : list string)
  : result kwarg :=
  if bool_decide (mode ∈ FunctionCallingConfig_Mode) then
    Ok (KToolConfig mode allowed_function_names)
  else Raise (KeyError mode).

Definition mode_branch (json_mode extract : bool)
    (tool_types : option (list ToolType))
    (messages : list content) (call_kwargs : gmap string kwarg)
  : result (list content * gmap string kwarg) :=
  if json_mode then
    generation_config ← json_generation_config call_kwargs;
    let call_kwargs :=
      <["generation_config" := KGenerationConfigDict generation_config]>
        call_kwargs in
    last_message ← index_last messages;
    last_message ←
      append_part last_message (json_mode_content (first_tool tool_types));
    let messages := set_last messages last_message in
    Ok (messages, delete "tools" call_kwargs)
  else if extract then
    match tool_types with
    | Some (tool_type :: _) =>
        let call_kwargs := delete "tool_config" call_kwargs in
        tool_config ← ToolConfig "any" [_name tool_type];
        Ok (messages, <["tool_config" := tool_config]> call_kwargs)
    | _ => Raise (AssertionError extraction_assert_msg)
    end
  else
    Ok (messages, call_kwargs).

(** The reading of JSON mode as an injection into the final user turn:
    the instruction joins the content of the last message when that
    message has role user, and otherwise comes as a new user message at
    the end. *)
Definition injected_into_final_user_turn (instruction : string)
    (before after : list content) : Prop :=
  match last before with
  | Some m =>
      if bool_decide (role m = "user") then
        after
        = removelast before
          ++ [ContentDict (role m) (parts m ++ [PartStr instruction])]
      else
        after = before ++ [ContentDict "user" [PartStr instruction]]
  | None => after = [ContentDict "user" [PartStr instruction]]
  end.

Definition setup_call
    (model : string) (client : option Client) (fn : Fn) (fn_args : FnArgs)
    (dynamic_config : DynamicConfig) (tools : option (list Tool))
    (json_mode : bool) (call_params : CallParams) (extract : bool)
  : result setup :=
  let '(prompt_template, messages, tool_types, base_call_kwargs) :=
    utils_setup_call fn fn_args dynamic_config tools call_params in
  let call_kwargs := base_call_kwargs in
  messages ← convert_message_params messages;
  '(messages, call_kwargs) ←
    mode_branch json_mode extract tool_types messages call_kwargs;
  let call_kwargs := <["contents" := KContents messages]> call_kwargs in
  let client :=
    match client with
    | None => GenerativeModel model
    | Some c => c
    end in
  let create :=
    if fn_is_async fn then get_async_create_fn client
    else get_create_fn client in
  Ok (Setup create prompt_template messages tool_types call_kwargs).

End setup_call.

End Vertex.

(* ===================================================================== *)
(** * Chat completion wrapper ([mirascope/chat/types.py])                 *)
(* ===================================================================== *)

Module ChatTypes.

(** The SDK's response types, reduced to the fields the wrapper reads. *)
Record Function : Type := {
  name : string;
  arguments : string;
}.

Record ChatCompletionMessageToolCall : Type := {
  id : string;
  function : Function;
}.

Record ChatCompletionMessage : Type := {
  message_content : option string;
  message_tool_calls : option (list ChatCompletionMessageToolCall);
}.

Record Choice : Type := {
  choice_message : ChatCompletionMessage;
}.

Record ChatCompletion : Type := {
  completion_choices : list Choice;
}.

Section completion.

(** Instances of [OpenAITool] ([mirascope/chat/tools.py], not among the
    sources at hand).  A tool class is known by its [__name__] and its
    classmethod [from_tool_call], which validates the arguments of a tool
    call and may raise. *)
Variable OpenAITool : Type.

Record tool_type : Type := {
  __name__ : string;
  from_tool_call : ChatCompletionMessageToolCall → result OpenAITool;
}.

Record OpenAIChatCompletion : Type := {
  completion : ChatCompletion;
  tool_types : option (list tool_type);
}.

(** [OpenAIChatCompletion(completion=..., tool_types=...)]: the class
    declares two fields and no validator, so construction stores them. *)
Definition new (completion : ChatCompletion)
    (tool_types : option (list tool_type)) : result OpenAIChatCompletion :=
  Ok {| completion := completion; tool_types := tool_types |}.

Definition choices (self : OpenAIChatCompletion) : list Choice :=
  completion_choices (completion self).

Definition choice (self : OpenAIChatCompletion) : result Choice :=
  index0 (completion_choices (completion self)).

Definition message (self : OpenAIChatCompletion)
  : result ChatCompletionMessage :=
  c ← index0 (completion_choices (completion self));
  Ok (choice_message c).

Definition content (self : OpenAIChatCompletion) : result (option string) :=
  c ← index0 (completion_choices (completion self));
  Ok (message_content (choice_message c)).

Definition tool_calls (self : OpenAIChatCompletion)
  : result (option (list ChatCompletionMessageToolCall)) :=
  m ← message self;
  Ok (message_tool_calls m).

(** The inner loop of [tools]: the first tool type whose name is the one
    the call reports converts the call; [None] when the loop ends without
    a [break]. *)
Fixpoint match_tool_type (tool_call : ChatCompletionMessageToolCall)
    (tool_types : list tool_type) : result (option OpenAITool) :=
  match tool_types with
  | [] => Ok None
  | tool_type :: rest =>
      if bool_decide (name (function tool_call) = __name__ tool_type) then
        tool ← from_tool_call tool_type tool_call;
        Ok (Some tool)
      else
        match_tool_type tool_call rest
  end.

(** The outer loop, with its accumulator [extracted_tools]. *)
Fixpoint extract_loop (extracted_tools : list OpenAITool)
    (tool_calls : list ChatCompletionMessageToolCall)
    (tool_types : list tool_type) : result (list OpenAITool) :=
  match tool_calls with
  | [] => Ok extracted_tools
  | tool_call :: rest =>
      found ← match_tool_type tool_call tool_types;
      match found with
      | Some tool => extract_loop (extracted_tools ++ [tool]) rest tool_types
      | None => extract_loop extracted_tools rest tool_types
      end
  end.

Definition tools (self : OpenAIChatCompletion)
  : result (option (list OpenAITool)) :=
  if negb (truthy_opt_list (tool_types self)) then Ok None
  else
    tcs ← tool_calls self;
    if negb (truthy_opt_list tcs) then Ok None
    else
      extracted_tools ←
        extract_loop [] (default [] tcs) (default [] (tool_types self));
      Ok (Some extracted_tools).

(** [tool] reads the property [tools] up to three times. *)
Definition tool (self : OpenAIChatCompletion) : result (option OpenAITool) :=
  tools1 ← tools self;
  if truthy_opt_list tools1 then
    tools2 ← tools self;
    if 0 <? length (default [] tools2) then
      tools3 ← tools self;
      t ← index0 (default [] tools3);
      Ok (Some t)
    else Ok None
  else Ok None.

(** The claim's reading of [tools], in its own words: keep the calls whose
    reported name is the name of some tool type, in the order the provider
    gave them, and resolve each against the first tool type of that name. *)
Definition names_tool_type (tool_types : list tool_type)
    (tool_call : ChatCompletionMessageToolCall) : bool :=
  bool_decide (name (function tool_call) ∈ __name__ <$> tool_types).

Definition resolve (tool_types : list tool_type)
    (tool_call : ChatCompletionMessageToolCall) : result OpenAITool :=
  match
    list_find (λ tt, name (function tool_call) = __name__ tt) tool_types
  with
  | Some (_, tool_type) => from_tool_call tool_type tool_call
  | None => Raise AttributeError
  end.

Fixpoint resolve_all (tool_types : list tool_type)
    (tool_calls : list ChatCompletionMessageToolCall)
  : result (list OpenAITool) :=
  match tool_calls with
  | [] => Ok []
  | tool_call :: rest =>
      tool ← resolve tool_types tool_call;
      tools ← resolve_all tool_types rest;
      Ok (tool :: tools)
  end.

Definition tools_spec (tool_types : list tool_type)
    (tool_calls : list ChatCompletionMessageToolCall)
  : result (list OpenAITool) :=
  resolve_all tool_types (filter (λ tc, names_tool_type tool_types tc)
                                 tool_calls).

(** [OpenAIChatCompletion.__str__]: returns the content, [None]
    included. *)
Definition __str__ (self : OpenAIChatCompletion) : result (option string) :=
  content self.

End completion.

(** The wrapper of a streamed chunk, in the same file. *)
Module OpenAIChatCompletionChunk.

Record ChoiceDelta : Type := {
  delta_content : option string;
}.

Record ChunkChoice : Type := {
  choice_delta : ChoiceDelta;
}.

Record ChatCompletionChunk : Type := {
  chunk_choices : list ChunkChoice;
}.

Record OpenAIChatCompletionChunk : Type := {
  chunk : ChatCompletionChunk;
}.

Definition choices (self : OpenAIChatCompletionChunk) : list ChunkChoice :=
  chunk_choices (chunk self).

Definition choice (self : OpenAIChatCompletionChunk) : result ChunkChoice :=
  index0 (chunk_choices (chunk self)).

Definition delta (self : OpenAIChatCompletionChunk) : result ChoiceDelta :=
  c ← index0 (choices self);
  Ok (choice_delta c).

Definition content (self : OpenAIChatCompletionChunk)
  : result (option string) :=
  d ← delta self;
  Ok (delta_content d).

(** [self.content if self.content is not None else ""] *)
Definition __str__ (self : OpenAIChatCompletionChunk) : result string :=
  c ← content self;
  if truthy_obj c then
    c' ← content self;
    deref c'
  else Ok "".

End OpenAIChatCompletionChunk.

End ChatTypes.

(* ===================================================================== *)
(** * OpenAI response chunks                                              *)
(* ===================================================================== *)

Module OpenAIChunk.

(** The SDK's [ChatCompletionChunk], reduced to what the wrapper reads.
    Optional fields are [option]s; [usage] may also be missing as an
    attribute altogether, which is what [hasattr] tests. *)
Record ChoiceDelta : Type := {
  delta_content : option string;
}.

Record Choice : Type := {
  delta : option ChoiceDelta;
  finish_reason : option string;
}.

Record CompletionUsage : Type := {
  prompt_tokens : Z;
  completion_tokens : Z;
  total_tokens : Z;
}.

Inductive attribute (A : Type) : Type :=
| Missing
| Attr (a : A).
Global Arguments Missing {A}.
Global Arguments Attr {A} a.

Record ChatCompletionChunk : Type := {
  chunk_id : string;
  chunk_choices : list Choice;
  chunk_model : string;
  chunk_usage : attribute (option CompletionUsage);
}.

Record OpenAICallResponseChunk : Type := {
  chunk : ChatCompletionChunk;
}.

Definition hasattr {A} (a : attribute A) : bool :=
  match a with Missing => false | Attr _ => true end.

(** [o.attr]: raises when the attribute is missing. *)
Definition getattr {A} (a : attribute A) : result A :=
  match a with
  | Attr v => Ok v
  | Missing => Raise AttributeError
  end.

Definition content (self : OpenAICallResponseChunk) : result string :=
  delta ←
    (if truthy_list (chunk_choices (chunk self)) then
       c ← index0 (chunk_choices (chunk self));
       Ok (delta c)
     else Ok None);
  match delta with
  | Some d =>
      if truthy_obj (delta_content d)
         && truthy_str (default "" (delta_content d)) then
        deref (delta_content d)
      else Ok ""
  | None => Ok ""
  end.

Definition finish_reasons (self : OpenAICallResponseChunk)
  : result (list string) :=
  Ok (omap
        (λ choice,
           match finish_reason choice with
           | Some r => if truthy_str r then Some r else None
           | None => None
           end)
        (chunk_choices (chunk self))).

Definition model (self : OpenAICallResponseChunk) : result string :=
  Ok (chunk_model (chunk self)).

Definition id (self : OpenAICallResponseChunk) : result string :=
  Ok (chunk_id (chunk self)).

Definition usage (self : OpenAICallResponseChunk)
  : result (option CompletionUsage) :=
  if hasattr (chunk_usage (chunk self)) then
    u ← getattr (chunk_usage (chunk self));
    if truthy_obj u then getattr (chunk_usage (chunk self))
    else Ok None
  else Ok None.

Definition input_tokens (self : OpenAICallResponseChunk)
  : result (option Z) :=
  u ← usage self;
  if truthy_obj u then
    u' ← usage self;
    u'' ← deref u';
    Ok (Some (prompt_tokens u''))
  else Ok None.

Definition output_tokens (self : OpenAICallResponseChunk)
  : result (option Z) :=
  u ← usage self;
  if truthy_obj u then
    u' ← usage self;
    u'' ← deref u';
    Ok (Some (completion_tokens u''))
  else Ok None.

End OpenAIChunk.

(* ===================================================================== *)
(** * Cohere response chunks                                              *)
(* ===================================================================== *)

Module CohereChunk.

Section chunk.

(** Billed units are floating-point numbers the wrapper only passes on. *)
Variable Number : Type.

Record ApiMetaBilledUnits : Type := {
  billed_input_tokens : option Number;
  billed_output_tokens : option Number;
}.

Record ApiMeta : Type := {
  billed_units : option ApiMetaBilledUnits;
}.

Record NonStreamedChatResponse : Type := {
  response_generation_id : option string;
  meta : option ApiMeta;
}.

(** The SDK's union [StreamedChatResponse]: the three event classes the
    wrapper recognises, and the remaining events. *)
Inductive StreamedChatResponse : Type :=
| StreamedChatResponse_StreamStart (generation_id : string)
| StreamedChatResponse_TextGeneration (text : string)
| StreamedChatResponse_StreamEnd
    (finish_reason : string) (response : NonStreamedChatResponse)
| StreamedChatResponse_Other (event_type : string).

Record CohereCallResponseChunk : Type := {
  chunk : StreamedChatResponse;
}.

Definition is_TextGeneration (c : StreamedChatResponse) : bool :=
  match c with StreamedChatResponse_TextGeneration _ => true | _ => false end.

Definition is_StreamStart (c : StreamedChatResponse) : bool :=
  match c with StreamedChatResponse_StreamStart _ => true | _ => false end.

Definition is_StreamEnd (c : StreamedChatResponse) : bool :=
  match c with StreamedChatResponse_StreamEnd _ _ => true | _ => false end.

(** Attribute reads; an event class without the attribute raises. *)
Definition get_text (c : StreamedChatResponse) : result string :=
  match c with
  | StreamedChatResponse_TextGeneration t => Ok t
  | _ => Raise AttributeError
  end.

Definition get_generation_id (c : StreamedChatResponse) : result string :=
  match c with
  | StreamedChatResponse_StreamStart g => Ok g
  | _ => Raise AttributeError
  end.

Definition get_finish_reason (c : StreamedChatResponse) : result string :=
  match c with
  | StreamedChatResponse_StreamEnd r _ => Ok r
  | _ => Raise AttributeError
  end.

Definition get_response (c : StreamedChatResponse)
  : result NonStreamedChatResponse :=
  match c with
  | StreamedChatResponse_StreamEnd _ r => Ok r
  | _ => Raise AttributeError
  end.

Definition content (self : CohereCallResponseChunk) : result string :=
  if is_TextGeneration (chunk self) then get_text (chunk self)
  else Ok "".

Definition finish_reasons (self : CohereCallResponseChunk)
  : result (option (list string)) :=
  if is_StreamEnd (chunk self) then
    r ← get_finish_reason (chunk self);
    Ok (Some [r])
  else Ok None.

Definition model (self : CohereCallResponseChunk) : result (option string) :=
  Ok None.

Definition id (self : CohereCallResponseChunk) : result (option string) :=
  if is_StreamStart (chunk self) then
    g ← get_generation_id (chunk self);
    Ok (Some g)
  else if is_StreamEnd (chunk self) then
    r ← get_response (chunk self);
    Ok (response_generation_id r)
  else Ok None.

Definition usage (self : CohereCallResponseChunk)
  : result (option ApiMetaBilledUnits) :=
  if is_StreamEnd (chunk self) then
    r ← get_response (chunk self);
    if truthy_obj (meta r) then
      r' ← get_response (chunk self);
      m ← deref (meta r');
      Ok (billed_units m)
    else Ok None
  else Ok None.

Definition input_tokens (self : CohereCallResponseChunk)
  : result (option Number) :=
  u ← usage self;
  if truthy_obj u then
    u' ← usage self;
    b ← deref u';
    Ok (billed_input_tokens b)
  else Ok None.

Definition output_tokens (self : CohereCallResponseChunk)
  : result (option Number) :=
  u ← usage self;
  if truthy_obj u then
    u' ← usage self;
    b ← deref u';
    Ok (billed_output_tokens b)
  else Ok None.

End chunk.

End CohereChunk.

(* ===================================================================== *)
(** * The stream coordinator                                              *)
(* ===================================================================== *)

Module Stream.

Section stream.

Variables ToolCall Usage : Type.

(** Modelled from the spec: the chunk wrapper of section 3, as the stream
    coordinator reads it ([mirascope/core/base/stream.py] and the Mistral
    stream are not among the sources at hand; only their test is). *)
Record chunk : Type := {
  content_delta : string;
  finish_reason : option string;
  usage : option Usage;
}.

(** Modelled from the spec: the synthesized assistant turn. *)
Record message : Type := {
  role : string;
  content : string;
  tool_calls : list ToolCall;
}.

(** Modelled from the spec: [StreamState] of section 3.  The coordinator
    consumes the public pairing [(chunk, completed tool call | None)] of
    section 4.6, so the per-index argument buffers, which sit before that
    pairing, are not part of this state. *)
Record StreamState : Type := {
  accumulated_content : string;
  completed_tool_calls : list ToolCall;
  final_usage : option Usage;
  final_finish_reason : option string;
  message_param : option message;
}.

(** Modelled from the spec: stream start. *)
Definition start : StreamState :=
  {| accumulated_content := "";
     completed_tool_calls := [];
     final_usage := None;
     final_finish_reason := None;
     message_param := None |}.

(** Modelled from the spec: the Receiving step of section 4.6, once per
    item: append the content delta, record a completed tool call, keep
    the usage and finish reason of the last chunk carrying them. *)
Definition receive (st : StreamState) (item : chunk * option ToolCall)
  : StreamState :=
  let '(c, tool) := item in
  {| accumulated_content := accumulated_content st +:+ content_delta c;
     completed_tool_calls :=
       match tool with
       | Some t => completed_tool_calls st ++ [t]
       | None => completed_tool_calls st
       end;
     final_usage :=
       match usage c with
       | Some u => Some u
       | None => final_usage st
       end;
     final_finish_reason :=
       match finish_reason c with
       | Some r => Some r
       | None => final_finish_reason st
       end;
     message_param := message_param st |}.

(** Modelled from the spec: the Terminal step, on source exhaustion. *)
Definition terminal (st : StreamState) : StreamState :=
  {| accumulated_content := accumulated_content st;
     completed_tool_calls := completed_tool_calls st;
     final_usage := final_usage st;
     final_finish_reason := final_finish_reason st;
     message_param :=
       Some {| role := "assistant";
               content := accumulated_content st;
               tool_calls := completed_tool_calls st |} |}.

(** Modelled from the spec: consuming a finite source to exhaustion. *)
Definition consume (items : list (chunk * option ToolCall)) : StreamState :=
  terminal (foldl receive start items).

(** The in-order concatenation of the content deltas. *)
Definition concat_deltas (items : list (chunk * option ToolCall)) : string :=
  foldr (λ item acc, content_delta item.1 +:+ acc) "" items.

End stream.

End Stream.

(* ===================================================================== *)
(** * Example scripts                                                     *)
(* ===================================================================== *)

(** [examples/learn/output_parsers/basic_usage/cohere/base_message_param.py]
    with the string methods it relies on. *)
Module Examples.

(** [s.startswith(prefix)] *)
Fixpoint startswith (prefix s : string) : bool :=
  match prefix, s with
  | EmptyString, _ => true
  | String a prefix', String b s' =>
      if bool_decide (a = b) then startswith prefix' s' else false
  | String _ _, EmptyString => false
  end.

(** The scan of [s.split(sep)] for a non-empty [sep], left to right over
    non-overlapping occurrences: [piece] is the piece being read, and
    [skip] counts the characters of an occurrence just found that are
    still to be passed over. *)
Fixpoint split_loop (sep : string) (skip : nat) (piece : string) (s : string)
  : list string :=
  match s with
  | EmptyString => [piece]
  | String c s' =>
      match skip with
      | S k => split_loop sep k piece s'
      | O =>
          if startswith sep s then
            piece :: split_loop sep (String.length sep - 1) "" s'
          else
            split_loop sep 0 (piece +:+ String c "") s'
      end
  end.

(** [s.split(sep)] *)
Definition split (s sep : string) : result (list string) :=
  if truthy_str sep then Ok (split_loop sep 0 "" s)
  else Raise (ValueError "empty separator").

(** [sep.join(pieces)] *)
Fixpoint join (sep : string) (pieces : list string) : string :=
  match pieces with
  | [] => ""
  | [piece] => piece
  | piece :: rest => piece +:+ sep +:+ join sep rest
  end.

(** [s[n:]] *)
Fixpoint drop_chars (n : nat) (s : string) : string :=
  match n, s with
  | S k, String _ s' => drop_chars k s'
  | _, _ => s
  end.

(** [title, author = response.content.split(" by ")]: unpacking into two
    names raises [ValueError] unless there are exactly two pieces. *)
Definition parse_recommendation (content : string)
  : result (string * string) :=
  pieces ← split content " by ";
  match pieces with
  | [title; author] => Ok (title, author)
  | [] | [_] =>
      Raise (ValueError "not enough values to unpack (expected 2, got 1)")
  | _ => Raise (ValueError "too many values to unpack (expected 2)")
  end.

End Examples.

(* ===================================================================== *)
(** * Scenarios                                                           *)
(* ===================================================================== *)

(** Concrete responses on which the properties below are exercised.  A
    resolved tool is represented by the argument string it was built
    from. *)
Module Scenario.
Import ChatTypes.

Definition recommend_book : tool_type string :=
  {| __name__ := "recommend_book";
     from_tool_call := λ tc, Ok (arguments (function tc)) |}.

Definition call (i n a : string) : ChatCompletionMessageToolCall :=
  {| id := i; function := {| name := n; arguments := a |} |}.

Definition response (tcs : list ChatCompletionMessageToolCall)
  : OpenAIChatCompletion string :=
  {| completion :=
       {| completion_choices :=
            [ {| choice_message :=
                   {| message_content := None;
                      message_tool_calls := Some tcs |} |} ] |};
     tool_types := Some [recommend_book] |}.

(** A second tool type of the same name, told apart by what it
    resolves to. *)
Definition recommend_book_again : tool_type string :=
  {| __name__ := "recommend_book";
     from_tool_call := λ tc, Ok "shadowed" |}.

(** The provider names [lookup_weather]; only [recommend_book] is
    active. *)
Definition weather_calls : list ChatCompletionMessageToolCall :=
  [call "call_1" "lookup_weather" "Paris"].

Definition mixed_calls : list ChatCompletionMessageToolCall :=
  [call "call_1" "recommend_book" "Dune";
   call "call_2" "lookup_weather" "Paris";
   call "call_3" "recommend_book" "Emma"].

(** A Mistral and a Vertex setup with fixed collaborators: the base setup
    returns the given messages, tool types (known by name) and kwargs; the
    client is represented by the API key, respectively the model name, it
    was built from. *)
Definition mistral_setup (environ : gmap string string)
    (client : option string) (is_async : bool)
    (base_messages : list Mistral.message_param)
    (base_tool_types : option (list string))
    (base_call_kwargs : gmap string (Mistral.kwarg unit))
    (json_mode extract : bool)
  : result (Mistral.setup string string unit) :=
  @Mistral.setup_call unit unit unit unit string unit string unit
    (λ _ _ _ _ _,
       (Some "template", base_messages, base_tool_types, base_call_kwargs))
    (λ _, "json_content") (λ _, is_async) (λ api_key, api_key)
    environ "mistral-large-latest" client tt tt tt None json_mode tt extract.

Definition vertex_setup
    (base_messages : list (Vertex.content unit))
    (base_tool_types : option (list string))
    (base_call_kwargs : gmap string (Vertex.kwarg unit unit))
    (json_mode extract : bool)
  : result (Vertex.setup string string unit unit) :=
  @Vertex.setup_call unit unit unit unit string unit string
    (Vertex.content unit) unit unit
    (λ _ _ _ _ _,
       (Some "template", base_messages, base_tool_types, base_call_kwargs))
    (λ _, "json_content") (λ _, false) Ok (λ tool_type, tool_type)
    (λ model_name, model_name)
    "gemini-1.5-flash" None tt tt tt None json_mode tt extract.

End Scenario.

(* ===================================================================== *)
(** * Properties                                                          *)
(* ===================================================================== *)

Arguments CallFactory.base_call {_ _ _ _ _} _ _ _ _ _ _ _ _ _.
Arguments Mistral.convert_common_params {_} _.
Arguments Mistral.convert_item : simpl never.

(** ** The error monad *)

Lemma bind_Ok {A B} (m : result A) (f : A → result B) (b : B) :
  m ≫= f = Ok b ↔ ∃ a, m = Ok a ∧ f a = Ok b.
Proof.
  destruct m as [a|e]; simpl; split.
  - intros H. by exists a.
  - by intros (a' & [= <-] & H).
  - done.
  - by intros (a' & ? & _).
Qed.

Lemma bind_Raise {A B} (m : result A) (f : A → result B) (e : exn) :
  m ≫= f = Raise e ↔ m = Raise e ∨ ∃ a, m = Ok a ∧ f a = Raise e.
Proof.
  destruct m as [a|e']; simpl; split.
  - intros H. right. by exists a.
  - intros [?|(a' & [= <-] & H)]; done.
  - intros [= <-]. by left.
  - intros [[= <-]|(a' & ? & _)]; done.
Qed.

(** ** The call factory *)

Section call_factory.

Context {Tool ResponseModel OutputParser Client CallParams : Type}.
Variable default_call_params : CallParams.

(** C1. [base_call] raises the configuration error (a [ValueError] with a
    fixed message) exactly when [stream] is true and an [output_parser] is
    given; the error is the outcome of [base_call] itself, whatever the
    other arguments are, so no decorator exists through which a setup or a
    provider call could be made.  In every other case a decorator is
    returned. *)
Theorem base_call_stream_output_parser_exclusive
    (model : string) (stream : bool) (tools : option (list Tool))
    (response_model : option ResponseModel)
    (output_parser : option OutputParser) (json_mode : bool)
    (client : option Client) (call_params : option CallParams) :
  let outcome :=
    CallFactory.base_call default_call_params model stream tools
      response_model output_parser json_mode client call_params in
  (stream = true ∧ output_parser ≠ None ↔
     outcome
     = Raise (ValueError "Cannot use `output_parser` with `stream=True`."))
  ∧ (¬ (stream = true ∧ output_parser ≠ None) ↔ returns outcome).
Proof.
  unfold CallFactory.base_call, returns.
  destruct stream, output_parser as [p|], response_model as [rm|]; simpl;
    repeat split;
    try (intros [? ?]; congruence);
    try (intros ? [? ?]; congruence);
    try (intros [? ?] [? ?]; congruence);
    try discriminate; try by eexists.
  all: intros H; exfalso; apply H; by split.
Qed.

End call_factory.

(** ** Mistral: message conversion *)

Section mistral_messages.

Import Message Mistral.

Lemma convert_message_param_unsupported (mp : message_param) :
  unsupported mp = true →
  convert_message_param mp = Raise (ValueError text_parts_only_msg).
Proof.
  destruct mp as [r [s|ps]|k c]; simpl; try discriminate.
  destruct ps as [|[t|d mt|i n a|i v] [|p ps]]; simpl; try discriminate; done.
Qed.

Lemma convert_message_param_supported (mp : message_param) :
  unsupported mp = false →
  ∃ m, convert_message_param mp = Ok m ∧ converts_to mp m.
Proof.
  destruct mp as [r [s|ps]|k c]; simpl.
  - intros _. eexists; split; [done | constructor].
  - destruct ps as [|[t|d mt|i n a|i v] [|p ps]]; simpl; try discriminate.
    intros _. eexists; split; [done | constructor].
  - intros _. eexists; split; [done | constructor].
Qed.

Lemma convert_loop_unsupported (mps : list message_param) :
  Exists (λ mp, unsupported mp = true) mps →
  ∀ acc, convert_loop acc mps = Raise (ValueError text_parts_only_msg).
Proof.
  induction 1 as [mp mps Hmp | mp mps Hex IH]; intros acc; simpl.
  - by rewrite (convert_message_param_unsupported mp Hmp).
  - destruct (unsupported mp) eqn:Hmp.
    + by rewrite (convert_message_param_unsupported mp Hmp).
    + destruct (convert_message_param_supported mp Hmp) as (m & -> & _).
      simpl. apply IH.
Qed.

Lemma convert_loop_supported (mps : list message_param) :
  Forall (λ mp, unsupported mp = false) mps →
  ∀ acc, ∃ out,
    convert_loop acc mps = Ok (acc ++ out) ∧ Forall2 converts_to mps out.
Proof.
  induction 1 as [|mp mps Hmp _ IH]; intros acc; simpl.
  - exists []. by rewrite app_nil_r.
  - destruct (convert_message_param_supported mp Hmp) as (m & -> & Hm).
    simpl. destruct (IH (acc ++ [m])) as (out & -> & Hout).
    exists (m :: out). split; [by rewrite <- app_assoc | by constructor].
Qed.

(** C6. A message list in which some neutral message has a part list
    that is not exactly one text part makes the Mistral conversion raise
    the descriptive [ValueError]; a list whose neutral messages all have a
    plain string or a single text part converts, every message to the
    text message that carries its whole content. *)
Theorem convert_message_params_text_only (mps : list message_param) :
  (Exists (λ mp, unsupported mp = true) mps →
   convert_message_params mps
   = Raise (ValueError "Mistral currently only supports text parts."))
  ∧ (Forall (λ mp, unsupported mp = false) mps →
     ∃ out, convert_message_params mps = Ok out
            ∧ Forall2 converts_to mps out).
Proof.
  split; intros H.
  - by apply convert_loop_unsupported.
  - destruct (convert_loop_supported mps H []) as (out & Hout & Hrel).
    by exists out.
Qed.

Example convert_image_part_raises :
  convert_message_params
    [BaseMessageParam "user" (Str "hi");
     BaseMessageParam "user" (Parts [TextPart "see"; ImagePart "..." "png"])]
  = Raise (ValueError "Mistral currently only supports text parts.").
Proof. reflexivity. Qed.

Example convert_empty_parts_raises :
  convert_message_params [BaseMessageParam "user" (Parts [])]
  = Raise (ValueError "Mistral currently only supports text parts.").
Proof. reflexivity. Qed.

Example convert_text_messages :
  convert_message_params
    [Native SystemMessage "be brief";
     BaseMessageParam "user" (Str "hi");
     BaseMessageParam "user" (Parts [TextPart "there"])]
  = Ok [NativeMessage SystemMessage "be brief";
        TextMessage "user" "hi"; TextMessage "user" "there"].
Proof. reflexivity. Qed.

End mistral_messages.

(** ** Mistral: common call parameters *)

Section mistral_common_params.

Import Mistral.
Context {V : Type}.

Lemma mapping_lookup (key key' : string) :
  MISTRAL_PARAM_MAPPING !! key = Some key'
  ↔ key ∈ recognised ∧ key' = renamed key.
Proof.
  unfold MISTRAL_PARAM_MAPPING, recognised, renamed.
  rewrite !lookup_insert_Some, lookup_singleton_Some, !elem_of_cons,
    elem_of_nil.
  split.
  - intros [[<- <-]|[_ [[<- <-]|[_ [[<- <-]|[_ [[<- <-]|[_ [<- <-]]]]]]]]];
      (split; [tauto | reflexivity]).
  - intros [[->|[->|[->|[->|[->|[]]]]]] ->]; cbn;
      repeat (first [ left; split; reflexivity
                    | right; split; [discriminate|] ]);
      by split.
Qed.

Lemma renamed_inj (k1 k2 : string) :
  k1 ∈ recognised → k2 ∈ recognised → renamed k1 = renamed k2 → k1 = k2.
Proof.
  unfold recognised. rewrite !elem_of_cons, !elem_of_nil.
  intros [->|[->|[->|[->|[->|[]]]]]] [->|[->|[->|[->|[->|[]]]]]];
    cbn; (reflexivity || discriminate).
Qed.

Lemma convert_item_Some (key : string) (value : option V) (key' : string)
    (v : V) :
  convert_item V (key, value) = Some (key', v)
  ↔ key ∈ recognised ∧ key' = renamed key ∧ value = Some v.
Proof.
  unfold convert_item. split.
  - destruct (MISTRAL_PARAM_MAPPING !! key) as [k|] eqn:Hk; [|done].
    destruct value as [w|]; [|done].
    intros [= -> ->]. by apply mapping_lookup in Hk as [? ?].
  - intros (Hin & Hren & ->).
    assert (MISTRAL_PARAM_MAPPING !! key = Some key') as ->
      by by apply mapping_lookup.
    done.
Qed.

Lemma convert_items_NoDup (items : list (string * option V)) :
  NoDup items.*1 → NoDup (omap (convert_item V) items).*1.
Proof.
  induction items as [|[key value] items IH]; simpl; [constructor|].
  rewrite NoDup_cons. intros [Hkey Hitems].
  destruct (convert_item V (key, value)) as [[key' v]|] eqn:Hitem;
    [|by apply IH].
  simpl. apply NoDup_cons. split; [|by apply IH].
  rewrite list_elem_of_fmap. intros ([k2 v2] & -> & Hin). simpl in *.
  apply list_elem_of_omap in Hin as ([k3 value3] & Hin & Hitem3).
  apply convert_item_Some in Hitem as (Hk & Hk' & _).
  apply convert_item_Some in Hitem3 as (Hk3 & Hk3' & _).
  assert (key = k3) as -> by (apply renamed_inj; congruence).
  apply Hkey. apply list_elem_of_fmap. by exists (k3, value3).
Qed.

(** C10. The Mistral conversion of a common-call-params mapping has an
    entry [key' ↦ v] exactly when the mapping has an entry [key ↦ v] with
    [v] not [None] and [key] one of temperature, max_tokens, top_p, seed,
    stop, where [key'] is [key], except that seed becomes random_seed.
    Unrecognised keys and [None]-valued entries leave no trace. *)
Theorem convert_common_params_entries
    (common_params : gmap string (option V)) (key' : string) (v : V) :
  convert_common_params common_params !! key' = Some v
  ↔ ∃ key,
      key ∈ ["temperature"; "max_tokens"; "top_p"; "seed"; "stop"]
      ∧ key' = (if bool_decide (key = "seed") then "random_seed" else key)
      ∧ common_params !! key = Some (Some v).
Proof.
  unfold convert_common_params. split.
  - intros H. apply elem_of_list_to_map_2 in H.
    apply list_elem_of_omap in H as ([key value] & Hin & Hitem).
    apply elem_of_map_to_list in Hin.
    apply convert_item_Some in Hitem as (Hk & Hk' & ->).
    by exists key.
  - intros (key & Hk & Hk' & Hlookup).
    apply elem_of_list_to_map_1.
    + apply convert_items_NoDup, NoDup_fst_map_to_list.
    + apply list_elem_of_omap. exists (key, Some v). split.
      * by apply elem_of_map_to_list.
      * by apply convert_item_Some.
Qed.

Example convert_common_params_renames_seed :
  convert_common_params
    ({[ "seed" := Some 42%Z; "temperature" := None;
        "frequency_penalty" := Some 1%Z; "max_tokens" := Some 100%Z ]}
       : gmap string (option Z))
  = {[ "random_seed" := 42%Z; "max_tokens" := 100%Z ]}.
Proof. by vm_compute. Qed.

End mistral_common_params.

(** ** Provider setup *)

Arguments Mistral.setup_call {_ _ _ _ _ _ _ _} _ _ _ _ _ _ _ _ _ _ _ _ _ _.
Arguments Mistral.mode_branch {_ _} _ _ _ _ _ _.
Arguments Mistral.first_tool {_} _.
Arguments Mistral.call_kwargs {_ _ _}.
Arguments Mistral.messages {_ _ _}.
Arguments Mistral.tool_types {_ _ _}.
Arguments Mistral.KToolChoice {_}.
Arguments Mistral.selects_tool {_}.
Arguments Mistral.KMessages {_}.
Arguments Mistral.KModel {_}.
Arguments Mistral.KResponseFormat {_}.
Arguments Vertex.setup_call {_ _ _ _ _ _ _ _ _ _} _ _ _ _ _ _ _ _ _ _ _ _ _ _ _.
Arguments Vertex.mode_branch {_ _ _} _ _ _ _ _ _ _.
Arguments Vertex.json_generation_config {_ _}.
Arguments Vertex.first_tool {_} _.
Arguments Vertex.append_part {_}.
Arguments Vertex.injected_into_final_user_turn {_}.
Arguments Vertex.call_kwargs {_ _ _ _}.
Arguments Vertex.messages {_ _ _ _}.
Arguments Vertex.tool_types {_ _ _ _}.
Arguments Vertex.KToolConfig {_ _}.
Arguments Vertex.KContents {_ _}.
Arguments Vertex.KGenerationConfigDict {_ _}.
Arguments Vertex.KGenerationConfigDataclass {_ _}.
Arguments Vertex.Content {_}.
Arguments Vertex.ContentDict {_}.
Arguments Vertex.ToolConfig {_ _}.
Arguments Vertex.PartStr {_}.
Arguments Vertex.role {_}.
Arguments Vertex.parts {_}.

Lemma index_last_Ok {A} (l : list A) (x : A) :
  last l = Some x → index_last l = Ok x.
Proof. unfold index_last. by intros ->. Qed.

Lemma last_nonempty {A} (l : list A) : l ≠ [] → ∃ x, last l = Some x.
Proof.
  intros Hl. destruct (last l) as [x|] eqn:Hlast; [by exists x|].
  by apply last_None in Hlast.
Qed.

Section mistral_setup.

Import Mistral.
Context {Fn FnArgs DynamicConfig Tool ToolType CallParams Client V : Type}.
Variable utils_setup_call :
  Fn → FnArgs → DynamicConfig → option (list Tool) → CallParams →
  option string * list message_param * option (list ToolType)
  * gmap string (kwarg V).
Variable json_mode_content : option ToolType → string.
Variable fn_is_async : Fn → bool.
Variable Mistral_client : string → Client.

Local Abbreviation setup_call :=
  (setup_call utils_setup_call json_mode_content fn_is_async Mistral_client).
Local Abbreviation mode_branch := (mode_branch json_mode_content).

Variables (environ : gmap string string) (model : string)
  (client : option Client) (fn : Fn) (fn_args : FnArgs)
  (dynamic_config : DynamicConfig) (tools : option (list Tool))
  (call_params : CallParams).

(** What the base setup returned for these arguments. *)
Variables (base_template : option string) (base_messages : list message_param)
  (base_tool_types : option (list ToolType))
  (base_call_kwargs : gmap string (kwarg V)).
Hypothesis base_setup :
  utils_setup_call fn fn_args dynamic_config tools call_params
  = (base_template, base_messages, base_tool_types, base_call_kwargs).

Lemma mistral_setup_call_Ok (json_mode extract : bool)
    (r : setup ToolType Client V) :
  setup_call environ model client fn fn_args dynamic_config tools json_mode
    call_params extract = Ok r →
  ∃ ms ms' kw,
    convert_message_params base_messages = Ok ms
    ∧ mode_branch json_mode extract base_tool_types ms base_call_kwargs
      = Ok (ms', kw)
    ∧ messages r = ms'
    ∧ tool_types r = base_tool_types
    ∧ call_kwargs r
      = <["messages" := KMessages ms']> (<["model" := KModel model]> kw).
Proof using base_setup.
  unfold Mistral.setup_call. rewrite base_setup.
  intros (ms & Hms & H)%bind_Ok.
  apply bind_Ok in H as ([ms' kw] & Hbranch & [= <-]).
  by exists ms, ms', kw.
Qed.

Lemma mistral_setup_call_returns (json_mode extract : bool)
    (ms ms' : list message) (kw : gmap string (kwarg V)) :
  convert_message_params base_messages = Ok ms →
  mode_branch json_mode extract base_tool_types ms base_call_kwargs
  = Ok (ms', kw) →
  ∃ r,
    setup_call environ model client fn fn_args dynamic_config tools
      json_mode call_params extract = Ok r
    ∧ messages r = ms'
    ∧ tool_types r = base_tool_types
    ∧ call_kwargs r
      = <["messages" := KMessages ms']> (<["model" := KModel model]> kw).
Proof using base_setup.
  intros Hms Hbranch. unfold Mistral.setup_call.
  rewrite base_setup, Hms. simpl. rewrite Hbranch. simpl.
  by eexists.
Qed.

Lemma mistral_setup_call_Raise (json_mode extract : bool)
    (ms : list message) (e : exn) :
  convert_message_params base_messages = Ok ms →
  mode_branch json_mode extract base_tool_types ms base_call_kwargs
  = Raise e →
  setup_call environ model client fn fn_args dynamic_config tools
    json_mode call_params extract = Raise e.
Proof using base_setup.
  intros Hms Hbranch. unfold Mistral.setup_call.
  rewrite base_setup, Hms. simpl. by rewrite Hbranch.
Qed.

Lemma mistral_json_branch (extract : bool) (ms : list message) (m : message) :
  last ms = Some m →
  mode_branch true extract base_tool_types ms base_call_kwargs
  = Ok (if bool_decide (role m = "user") then
          removelast ms
          ++ [add_content m
                (json_mode_content (first_tool base_tool_types))]
        else
          ms ++ [NativeMessage UserMessage
                   (strip (json_mode_content (first_tool base_tool_types)))],
        delete "tools"
          (<["response_format" := KResponseFormat "json_object"]>
             base_call_kwargs)).
Proof.
  intros Hlast. unfold Mistral.mode_branch.
  rewrite (index_last_Ok _ _ Hlast). simpl.
  destruct ms as [|m0 ms]; [done|].
  by case_bool_decide.
Qed.

End mistral_setup.

Section vertex_setup.

Import Vertex.
Context {Fn FnArgs DynamicConfig Tool ToolType CallParams Client : Type}.
Context {MessageParam Part V : Type}.
Variable utils_setup_call :
  Fn → FnArgs → DynamicConfig → option (list Tool) → CallParams →
  option string * list MessageParam * option (list ToolType)
  * gmap string (kwarg Part V).
Variable json_mode_content : option ToolType → string.
Variable fn_is_async : Fn → bool.
Variable convert_message_params :
  list MessageParam → result (list (content Part)).
Variable _name : ToolType → string.
Variable GenerativeModel : string → Client.

Local Abbreviation setup_call :=
  (setup_call utils_setup_call json_mode_content fn_is_async
     convert_message_params _name GenerativeModel).
Local Abbreviation mode_branch := (mode_branch json_mode_content _name).

Variables (model : string) (client : option Client) (fn : Fn)
  (fn_args : FnArgs) (dynamic_config : DynamicConfig)
  (tools : option (list Tool)) (call_params : CallParams).

Variables (base_template : option string)
  (base_messages : list MessageParam)
  (base_tool_types : option (list ToolType))
  (base_call_kwargs : gmap string (kwarg Part V)).
Hypothesis base_setup :
  utils_setup_call fn fn_args dynamic_config tools call_params
  = (base_template, base_messages, base_tool_types, base_call_kwargs).

Lemma vertex_setup_call_Ok (json_mode extract : bool)
    (r : setup ToolType Client Part V) :
  setup_call model client fn fn_args dynamic_config tools json_mode
    call_params extract = Ok r →
  ∃ ms ms' kw,
    convert_message_params base_messages = Ok ms
    ∧ mode_branch json_mode extract base_tool_types ms base_call_kwargs
      = Ok (ms', kw)
    ∧ messages r = ms'
    ∧ tool_types r = base_tool_types
    ∧ call_kwargs r = <["contents" := KContents ms']> kw.
Proof using base_setup.
  unfold Vertex.setup_call. rewrite base_setup.
  intros (ms & Hms & H)%bind_Ok.
  apply bind_Ok in H as ([ms' kw] & Hbranch & [= <-]).
  by exists ms, ms', kw.
Qed.

Lemma vertex_setup_call_returns (json_mode extract : bool)
    (ms ms' : list (content Part)) (kw : gmap string (kwarg Part V)) :
  convert_message_params base_messages = Ok ms →
  mode_branch json_mode extract base_tool_types ms base_call_kwargs
  = Ok (ms', kw) →
  ∃ r,
    setup_call model client fn fn_args dynamic_config tools json_mode
      call_params extract = Ok r
    ∧ messages r = ms'
    ∧ tool_types r = base_tool_types
    ∧ call_kwargs r = <["contents" := KContents ms']> kw.
Proof using base_setup.
  intros Hms Hbranch. unfold Vertex.setup_call.
  rewrite base_setup, Hms. simpl. rewrite Hbranch. simpl.
  by eexists.
Qed.

Lemma vertex_setup_call_Raise (json_mode extract : bool)
    (ms : list (content Part)) (e : exn) :
  convert_message_params base_messages = Ok ms →
  mode_branch json_mode extract base_tool_types ms base_call_kwargs
  = Raise e →
  setup_call model client fn fn_args dynamic_config tools json_mode
    call_params extract = Raise e.
Proof using base_setup.
  intros Hms Hbranch. unfold Vertex.setup_call.
  rewrite base_setup, Hms. simpl. by rewrite Hbranch.
Qed.

Lemma vertex_json_branch (extract : bool) (ms : list (content Part))
    (turn_role : string) (turn_parts : list (part Part))
    (cfg : gmap string (config_value V)) :
  json_generation_config base_call_kwargs = Ok cfg →
  last ms = Some (ContentDict turn_role turn_parts) →
  mode_branch true extract base_tool_types ms base_call_kwargs
  = Ok (removelast ms
        ++ [ContentDict turn_role
              (turn_parts
               ++ [PartStr
                     (json_mode_content (first_tool base_tool_types))])],
        delete "tools"
          (<["generation_config" := KGenerationConfigDict cfg]>
             base_call_kwargs)).
Proof.
  intros Hcfg Hlast. unfold Vertex.mode_branch.
  rewrite Hcfg. simpl. rewrite (index_last_Ok _ _ Hlast). simpl.
  by destruct ms.
Qed.

End vertex_setup.

Section setup_contracts.

Context {Fn FnArgs DynamicConfig Tool ToolType CallParams Client : Type}.
Context {MessageParam Part V : Type}.

(** The plug-ins of the Mistral setup. *)
Variable mistral_utils_setup_call :
  Fn → FnArgs → DynamicConfig → option (list Tool) → CallParams →
  option string * list Mistral.message_param * option (list ToolType)
  * gmap string (Mistral.kwarg V).
Variable Mistral_client : string → Client.

(** The plug-ins of the Vertex setup. *)
Variable vertex_utils_setup_call :
  Fn → FnArgs → DynamicConfig → option (list Tool) → CallParams →
  option string * list MessageParam * option (list ToolType)
  * gmap string (Vertex.kwarg Part V).
Variable vertex_convert_message_params :
  list MessageParam → result (list (Vertex.content Part)).
Variable _name : ToolType → string.
Variable GenerativeModel : string → Client.

(** Shared by both. *)
Variable json_mode_content : option ToolType → string.
Variable fn_is_async : Fn → bool.

Local Abbreviation mistral_setup_call :=
  (Mistral.setup_call mistral_utils_setup_call json_mode_content fn_is_async
     Mistral_client).
Local Abbreviation vertex_setup_call :=
  (Vertex.setup_call vertex_utils_setup_call json_mode_content fn_is_async
     vertex_convert_message_params _name GenerativeModel).

(** C2. With [json_mode=True] the request kwargs a provider setup returns
    have no ["tools"] key, whatever the base setup had put there; and the
    setup does return whenever the converted message list is non-empty
    (for Vertex: whenever it ends in a dictionary turn and the generation
    config, if any, is a dictionary or a dataclass). *)
Theorem setup_call_json_mode_drops_tools
    (environ : gmap string string) (model : string) (client : option Client)
    (fn : Fn) (fn_args : FnArgs) (dynamic_config : DynamicConfig)
    (tools : option (list Tool)) (call_params : CallParams) (extract : bool) :
  let mistral :=
    mistral_setup_call environ model client fn fn_args dynamic_config tools
      true call_params extract in
  let vertex :=
    vertex_setup_call model client fn fn_args dynamic_config tools true
      call_params extract in
  (∀ r, mistral = Ok r → Mistral.call_kwargs r !! "tools" = None)
  ∧ (∀ r, vertex = Ok r → Vertex.call_kwargs r !! "tools" = None)
  ∧ (∀ template base_messages tool_types kwargs ms,
       mistral_utils_setup_call fn fn_args dynamic_config tools call_params
       = (template, base_messages, tool_types, kwargs) →
       Mistral.convert_message_params base_messages = Ok ms →
       ms ≠ [] →
       returns mistral)
  ∧ (∀ template base_messages tool_types kwargs ms turn_role turn_parts,
       vertex_utils_setup_call fn fn_args dynamic_config tools call_params
       = (template, base_messages, tool_types, kwargs) →
       vertex_convert_message_params base_messages = Ok ms →
       last ms = Some (Vertex.ContentDict turn_role turn_parts) →
       returns (Vertex.json_generation_config kwargs) →
       returns vertex).
Proof.
  intros mistral vertex. subst mistral vertex. repeat split.
  - intros r Hr.
    destruct (mistral_utils_setup_call fn fn_args dynamic_config tools
                call_params) as [[[pt bm] tts] kw] eqn:Hbase.
    destruct (mistral_setup_call_Ok _ _ _ _ _ _ _ _ _ _ _ _ _ _ _ _ Hbase
                _ _ _ Hr) as (ms & ms' & kw' & Hms & Hbranch & _ & _ & ->).
    unfold Mistral.mode_branch in Hbranch.
    apply bind_Ok in Hbranch as (m & _ & [= _ <-]).
    by rewrite !lookup_insert_ne, lookup_delete_eq.
  - intros r Hr.
    destruct (vertex_utils_setup_call fn fn_args dynamic_config tools
                call_params) as [[[pt bm] tts] kw] eqn:Hbase.
    destruct (vertex_setup_call_Ok _ _ _ _ _ _ _ _ _ _ _ _ _ _ _ _ _ Hbase
                _ _ _ Hr) as (ms & ms' & kw' & Hms & Hbranch & _ & _ & ->).
    unfold Vertex.mode_branch in Hbranch.
    apply bind_Ok in Hbranch as (cfg & _ & Hbranch).
    apply bind_Ok in Hbranch as (m & _ & Hbranch).
    apply bind_Ok in Hbranch as (m' & _ & [= _ <-]).
    by rewrite lookup_insert_ne, lookup_delete_eq.
  - intros pt bm tts kw ms Hbase Hms Hne.
    destruct (last_nonempty ms Hne) as [m Hm].
    destruct (mistral_setup_call_returns _ json_mode_content fn_is_async
                Mistral_client environ model client _ _ _ _ _ _ _ _ _ Hbase
                true extract _ _ _ Hms
                (mistral_json_branch json_mode_content _ _ extract ms m Hm))
      as (r & Hr & _).
    by exists r.
  - intros pt bm tts kw ms turn_role turn_parts Hbase Hms Hm [cfg Hcfg].
    destruct (vertex_setup_call_returns _ json_mode_content fn_is_async
                vertex_convert_message_params _name GenerativeModel model
                client _ _ _ _ _ _ _ _ _ Hbase true extract _ _ _ Hms
                (vertex_json_branch json_mode_content _name _ _ extract ms
                   turn_role turn_parts cfg Hcfg Hm))
      as (r & Hr & _).
    by exists r.
Qed.

(** C5, as amended.  With [extract=True] and [json_mode=False]: when the
    derived tool-type list is empty (or [None]) the Mistral and the
    Vertex setup raise, and the error is the assertion failure as soon as
    the messages convert, so no create function is handed out; when the
    list is non-empty (and the messages convert) the Mistral setup
    returns kwargs that force a tool call by setting [tool_choice] to
    ["any"], which names no tool, and leaves the tool schemas of the base
    setup in place. *)
Theorem setup_call_extract_needs_tool_and_forces_choice
    (environ : gmap string string) (model : string) (client : option Client)
    (fn : Fn) (fn_args : FnArgs) (dynamic_config : DynamicConfig)
    (tools : option (list Tool)) (call_params : CallParams) :
  let mistral :=
    mistral_setup_call environ model client fn fn_args dynamic_config tools
      false call_params true in
  let vertex :=
    vertex_setup_call model client fn fn_args dynamic_config tools false
      call_params true in
  (∀ template base_messages tool_types kwargs,
     mistral_utils_setup_call fn fn_args dynamic_config tools call_params
     = (template, base_messages, tool_types, kwargs) →
     (truthy_opt_list tool_types = false →
      raises mistral
      ∧ (returns (Mistral.convert_message_params base_messages) →
         mistral
         = Raise (AssertionError
                    "At least one tool must be provided for extraction.")))
     ∧ (∀ tool_type rest,
          tool_types = Some (tool_type :: rest) →
          returns (Mistral.convert_message_params base_messages) →
          ∃ r, mistral = Ok r
               ∧ Mistral.call_kwargs r !! "tool_choice"
                 = Some (Mistral.KToolChoice "any")
               ∧ Mistral.call_kwargs r !! "tools" = kwargs !! "tools"
               ∧ Mistral.tool_types r = Some (tool_type :: rest)))
  ∧ (∀ template base_messages tool_types kwargs,
       vertex_utils_setup_call fn fn_args dynamic_config tools call_params
       = (template, base_messages, tool_types, kwargs) →
       truthy_opt_list tool_types = false →
       raises vertex
       ∧ (returns (vertex_convert_message_params base_messages) →
          vertex
          = Raise (AssertionError
                     "At least one tool must be provided for extraction."))).
Proof.
  intros mistral vertex. subst mistral vertex. split.
  - intros pt bm tts kw Hbase. split.
    + intros Hfalsy.
      assert (∀ ms, Mistral.mode_branch json_mode_content false true tts ms kw
                    = Raise (AssertionError Mistral.extraction_assert_msg))
        as Hbranch.
      { intros ms. unfold Mistral.mode_branch. by rewrite Hfalsy. }
      split.
      * destruct (Mistral.convert_message_params bm) as [ms|e] eqn:Hms.
        -- eexists. eapply mistral_setup_call_Raise; eauto.
        -- exists e. unfold Mistral.setup_call. by rewrite Hbase, Hms.
      * intros [ms Hms]. eapply mistral_setup_call_Raise; eauto.
    + intros t ts -> [ms Hms].
      destruct (mistral_setup_call_returns _ json_mode_content fn_is_async
                  Mistral_client environ model client _ _ _ _ _ _ _ _ _
                  Hbase false true ms ms
                  (<["tool_choice" := Mistral.KToolChoice "any"]> kw) Hms
                  eq_refl)
        as (r & Hr & _ & Htts & Hkw).
      exists r. rewrite Hkw. repeat split; try done.
      * do 2 (rewrite lookup_insert_ne by done). by rewrite lookup_insert_eq.
      * by do 3 (rewrite lookup_insert_ne by done).
  - intros pt bm tts kw Hbase Hfalsy.
    assert (∀ ms, Vertex.mode_branch json_mode_content _name false true tts
                    ms kw
                  = Raise (AssertionError Vertex.extraction_assert_msg))
      as Hbranch.
    { intros ms. unfold Vertex.mode_branch.
      by destruct tts as [[|t ts]|]. }
    split.
    + destruct (vertex_convert_message_params bm) as [ms|e] eqn:Hms.
      * eexists. eapply vertex_setup_call_Raise; eauto.
      * exists e. unfold Vertex.setup_call. by rewrite Hbase, Hms.
    + intros [ms Hms]. eapply vertex_setup_call_Raise; eauto.
Qed.

(** C7, as amended.  With [json_mode=True] and a non-empty converted
    message list, the Mistral setup appends the JSON-mode instruction to
    the content of the last message when that message has role user, and
    otherwise appends a new user message, holding the instruction stripped
    of surrounding whitespace, at the end of the sequence.  The Vertex
    setup, when the converted list ends in a dictionary turn and the
    generation config is absent, a dictionary or a dataclass, appends the
    instruction as a further part of that last turn, whatever its role.
    In both, the resulting sequence is the one sent in the request. *)
Theorem setup_call_json_mode_instruction
    (environ : gmap string string) (model : string) (client : option Client)
    (fn : Fn) (fn_args : FnArgs) (dynamic_config : DynamicConfig)
    (tools : option (list Tool)) (call_params : CallParams) (extract : bool) :
  (∀ template base_messages tool_types kwargs ms m,
     mistral_utils_setup_call fn fn_args dynamic_config tools call_params
     = (template, base_messages, tool_types, kwargs) →
     Mistral.convert_message_params base_messages = Ok ms →
     last ms = Some m →
     let instruction := json_mode_content (Mistral.first_tool tool_types) in
     ∃ r,
       mistral_setup_call environ model client fn fn_args dynamic_config
         tools true call_params extract = Ok r
       ∧ Mistral.messages r
         = (if bool_decide (Mistral.role m = "user") then
              removelast ms ++ [Mistral.add_content m instruction]
            else
              ms ++ [Mistral.NativeMessage Mistral.UserMessage
                       (strip instruction)])
       ∧ Mistral.call_kwargs r !! "messages"
         = Some (Mistral.KMessages (Mistral.messages r)))
  ∧ (∀ template base_messages tool_types kwargs ms turn_role turn_parts,
       vertex_utils_setup_call fn fn_args dynamic_config tools call_params
       = (template, base_messages, tool_types, kwargs) →
       vertex_convert_message_params base_messages = Ok ms →
       last ms = Some (Vertex.ContentDict turn_role turn_parts) →
       returns (Vertex.json_generation_config kwargs) →
       let instruction := json_mode_content (Vertex.first_tool tool_types) in
       ∃ r,
         vertex_setup_call model client fn fn_args dynamic_config tools true
           call_params extract = Ok r
         ∧ Vertex.messages r
           = removelast ms
             ++ [Vertex.ContentDict turn_role
                   (turn_parts ++ [Vertex.PartStr instruction])]
         ∧ Vertex.call_kwargs r !! "contents"
           = Some (Vertex.KContents (Vertex.messages r))).
Proof.
  split.
  - intros pt bm tts kw ms m Hbase Hms Hm instruction.
    destruct (mistral_setup_call_returns _ json_mode_content fn_is_async
                Mistral_client environ model client _ _ _ _ _ _ _ _ _ Hbase
                true extract _ _ _ Hms
                (mistral_json_branch json_mode_content _ _ extract ms m Hm))
      as (r & Hr & Hmsgs & _ & Hkw).
    exists r. rewrite Hkw, Hmsgs. repeat split; try done.
    by rewrite lookup_insert_eq.
  - intros pt bm tts kw ms turn_role turn_parts Hbase Hms Hm [cfg Hcfg]
      instruction.
    destruct (vertex_setup_call_returns _ json_mode_content fn_is_async
                vertex_convert_message_params _name GenerativeModel model
                client _ _ _ _ _ _ _ _ _ Hbase true extract _ _ _ Hms
                (vertex_json_branch json_mode_content _name _ _ extract ms
                   turn_role turn_parts cfg Hcfg Hm))
      as (r & Hr & Hmsgs & _ & Hkw).
    exists r. rewrite Hkw, Hmsgs. repeat split; try done.
    by rewrite lookup_insert_eq.
Qed.

End setup_contracts.

(** ** Provider setup on concrete calls *)

(** The scenario of [test_setup_call_json_mode], on the Mistral setup: the
    base setup supplies a ["tools"] entry and one user message. *)
Example mistral_json_mode_user_turn :
  ∃ r,
    @Mistral.setup_call unit unit unit unit unit unit unit unit
      (λ _ _ _ _ _,
         (None, [Mistral.BaseMessageParam "user" (Message.Str "test")], None,
          {[ "tools" := Mistral.KBase unit tt ]}))
      (λ _, "json_content") (λ _, false) (λ _, tt)
      ∅ "mistral-large-latest" None tt tt tt None true tt false = Ok r
    ∧ Mistral.messages r = [Mistral.TextMessage "user" "testjson_content"]
    ∧ Mistral.call_kwargs r !! "tools" = None
    ∧ Mistral.call_kwargs r !! "response_format"
      = Some (Mistral.KResponseFormat "json_object").
Proof. eexists. split; [reflexivity|]. by vm_compute. Qed.

Example mistral_json_mode_assistant_turn :
  ∃ r,
    @Mistral.setup_call unit unit unit unit unit unit unit unit
      (λ _ _ _ _ _,
         (None,
          [Mistral.BaseMessageParam "user" (Message.Str "hi");
           Mistral.Native Mistral.AssistantMessage "hello"], None, ∅))
      (λ _, "  json_content ") (λ _, false) (λ _, tt)
      ∅ "mistral-large-latest" None tt tt tt None true tt false = Ok r
    ∧ Mistral.messages r
      = [Mistral.TextMessage "user" "hi";
         Mistral.NativeMessage Mistral.AssistantMessage "hello";
         Mistral.NativeMessage Mistral.UserMessage "json_content"].
Proof. eexists. split; [reflexivity|]. by vm_compute. Qed.

(** Without any message there is no last message to read. *)
Example mistral_json_mode_no_message :
  @Mistral.setup_call unit unit unit unit unit unit unit unit
    (λ _ _ _ _ _, (None, [], None, ∅))
    (λ _, "json_content") (λ _, false) (λ _, tt)
    ∅ "mistral-large-latest" None tt tt tt None true tt false
  = Raise IndexError.
Proof. reflexivity. Qed.

(** Extraction without any tool type fails on the assertion; with one, the
    kwargs force the tool call. *)
Example mistral_extract_no_tool :
  @Mistral.setup_call unit unit unit unit string unit unit unit
    (λ _ _ _ _ _,
       (None, [Mistral.BaseMessageParam "user" (Message.Str "hi")],
        Some [], ∅))
    (λ _, "json_content") (λ _, false) (λ _, tt)
    ∅ "mistral-large-latest" None tt tt tt None false tt true
  = Raise (AssertionError "At least one tool must be provided for extraction.").
Proof. reflexivity. Qed.

Example mistral_extract_one_tool :
  ∃ r,
    @Mistral.setup_call unit unit unit unit string unit unit unit
      (λ _ _ _ _ _,
         (None, [Mistral.BaseMessageParam "user" (Message.Str "hi")],
          Some ["Book"], {[ "tools" := Mistral.KBase unit tt ]}))
      (λ _, "json_content") (λ _, false) (λ _, tt)
      ∅ "mistral-large-latest" None tt tt tt None false tt true = Ok r
    ∧ Mistral.call_kwargs r !! "tool_choice"
      = Some (Mistral.KToolChoice "any")
    ∧ Mistral.call_kwargs r !! "tools" = Some (Mistral.KBase unit tt)
    ∧ Mistral.call_kwargs r !! "model"
      = Some (Mistral.KModel "mistral-large-latest").
Proof. eexists. split; [reflexivity|]. by vm_compute. Qed.

(** C5, counterexample.  A Mistral extraction call with the single tool
    type [Book]: the setup returns, and the tool choice it writes is
    ["any"], the same as for a call with two tool types; it is not the name
    of the extraction tool, so the kwargs select no tool. *)
Lemma mistral_extract_names_no_tool :
  ∃ r r',
    @Mistral.setup_call unit unit unit unit string unit unit unit
      (λ _ _ _ _ _,
         (None, [Mistral.BaseMessageParam "user" (Message.Str "hi")],
          Some ["Book"], {[ "tools" := Mistral.KBase unit tt ]}))
      (λ _, "json_content") (λ _, false) (λ _, tt)
      ∅ "mistral-large-latest" None tt tt tt None false tt true = Ok r
    ∧ @Mistral.setup_call unit unit unit unit string unit unit unit
        (λ _ _ _ _ _,
           (None, [Mistral.BaseMessageParam "user" (Message.Str "hi")],
            Some ["Book"; "Film"], {[ "tools" := Mistral.KBase unit tt ]}))
        (λ _, "json_content") (λ _, false) (λ _, tt)
        ∅ "mistral-large-latest" None tt tt tt None false tt true = Ok r'
    ∧ Mistral.call_kwargs r !! "tool_choice"
      = Some (Mistral.KToolChoice "any")
    ∧ Mistral.call_kwargs r' !! "tool_choice"
      = Mistral.call_kwargs r !! "tool_choice"
    ∧ ¬ Mistral.selects_tool (Mistral.call_kwargs r) "Book".
Proof.
  eexists _, _. split; [reflexivity|]. split; [reflexivity|].
  split; [by vm_compute|]. split; [by vm_compute|].
  unfold Mistral.selects_tool. vm_compute. discriminate.
Qed.

Example vertex_extract_no_tool :
  @Vertex.setup_call unit unit unit unit string unit unit
    (Vertex.content unit) unit unit
    (λ _ _ _ _ _, (None, [Vertex.ContentDict "user" [Vertex.PartStr "hi"]],
                   None, ∅))
    (λ _, "json_content") (λ _, false) Ok (λ t, t) (λ _, tt)
    "gemini-1.5-flash" None tt tt tt None false tt true
  = Raise (AssertionError "At least one tool must be provided for extraction.").
Proof. reflexivity. Qed.

(** With a tool type, the Vertex setup asks the SDK for the mode ["any"],
    which is no member name of the mode enum. *)
Example vertex_extract_mode_any :
  @Vertex.setup_call unit unit unit unit string unit unit
    (Vertex.content unit) unit unit
    (λ _ _ _ _ _,
       (None, [Vertex.ContentDict "user" [Vertex.PartStr "hi"]],
        Some ["Book"; "Film"],
        {[ "tool_config" := Vertex.KToolConfig "AUTO" [] ]}))
    (λ _, "json_content") (λ _, false) Ok (λ t, t) (λ _, tt)
    "gemini-1.5-flash" None tt tt tt None false tt true
  = Raise (KeyError "any").
Proof. by vm_compute. Qed.

(** JSON mode on a turn that is an instance of the SDK class: the
    subscript fails. *)
Example vertex_json_mode_content_object :
  @Vertex.setup_call unit unit unit unit string unit unit
    (Vertex.content unit) unit unit
    (λ _ _ _ _ _, (None, [Vertex.Content "user" [tt]], None, ∅))
    (λ _, "json_content") (λ _, false) Ok (λ t, t) (λ _, tt)
    "gemini-1.5-flash" None tt tt tt None true tt false
  = Raise TypeError.
Proof. by vm_compute. Qed.

(** JSON mode on Vertex: the tools go, the mime type comes, and the
    instruction joins the parts of the last message. *)
Example vertex_json_mode_user_turn :
  ∃ r,
    @Vertex.setup_call unit unit unit unit string unit unit
      (Vertex.content unit) unit unit
      (λ _ _ _ _ _,
         (None, [Vertex.ContentDict "user" [Vertex.PartStr "test"]],
          Some ["Book"],
          {[ "tools" := Vertex.KBase unit unit tt;
             "generation_config" :=
               Vertex.KGenerationConfigDataclass
                 {[ "temperature" := Vertex.CStr unit "0.2" ]} ]}))
      (λ _, "json_content") (λ _, false) Ok (λ t, t) (λ _, tt)
      "gemini-1.5-flash" None tt tt tt None true tt false = Ok r
    ∧ Vertex.messages r
      = [Vertex.ContentDict "user"
           [Vertex.PartStr "test"; Vertex.PartStr "json_content"]]
    ∧ Vertex.call_kwargs r !! "tools" = None
    ∧ Vertex.call_kwargs r !! "generation_config"
      = Some (Vertex.KGenerationConfigDict
                {[ "temperature" := Vertex.CStr unit "0.2";
                   "response_mime_type"
                   := Vertex.CStr unit "application/json" ]}).
Proof. eexists. split; [reflexivity|]. by vm_compute. Qed.

(** C7, counterexample.  A Vertex conversation whose last message has
    role model: JSON mode appends the instruction to that model message;
    no user message is added, so the instruction is not injected into a
    final user turn. *)
Lemma vertex_json_mode_last_turn_not_user :
  ∃ r,
    @Vertex.setup_call unit unit unit unit unit unit unit
      (Vertex.content unit) unit unit
      (λ _ _ _ _ _,
         (None,
          [Vertex.ContentDict "user" [Vertex.PartStr "hi"];
           Vertex.ContentDict "model" [Vertex.PartStr "ok"]], None, ∅))
      (λ _, "json_content") (λ _, false) Ok (λ _, "") (λ _, tt)
      "gemini-1.5-flash" None tt tt tt None true tt false = Ok r
    ∧ Vertex.messages r
      = [Vertex.ContentDict "user" [Vertex.PartStr "hi"];
         Vertex.ContentDict "model"
           [Vertex.PartStr "ok"; Vertex.PartStr "json_content"]]
    ∧ ¬ Vertex.injected_into_final_user_turn "json_content"
          [Vertex.ContentDict "user" [Vertex.PartStr "hi"];
           Vertex.ContentDict "model" [Vertex.PartStr "ok"]]
          (Vertex.messages r).
Proof.
  eexists. split; [reflexivity|]. split; [by vm_compute|].
  vm_compute. discriminate.
Qed.

(** ** The chat completion wrapper *)

Arguments ChatTypes.__name__ {_}.
Arguments ChatTypes.from_tool_call {_}.
Arguments ChatTypes.completion {_}.
Arguments ChatTypes.tool_types {_}.
Arguments ChatTypes.new {_}.
Arguments ChatTypes.tool_calls {_}.
Arguments ChatTypes.match_tool_type {_}.
Arguments ChatTypes.extract_loop {_}.
Arguments ChatTypes.tools {_}.
Arguments ChatTypes.tool {_}.
Arguments ChatTypes.names_tool_type {_}.
Arguments ChatTypes.resolve {_}.
Arguments ChatTypes.resolve_all {_}.
Arguments ChatTypes.tools_spec {_}.

Section chat_completion.

Import ChatTypes.
Context {OpenAITool : Type}.
Implicit Types (tts : list (tool_type OpenAITool)).
Implicit Types (tc : ChatCompletionMessageToolCall).
Implicit Types (tcs : list ChatCompletionMessageToolCall).
Implicit Types (self : OpenAIChatCompletion OpenAITool).

Lemma names_tool_type_cons tc (tt : tool_type OpenAITool) tts :
  names_tool_type (tt :: tts) tc
  = bool_decide (name (function tc) = __name__ tt) || names_tool_type tts tc.
Proof.
  unfold names_tool_type. rewrite fmap_cons.
  rewrite <- bool_decide_or. apply bool_decide_ext, elem_of_cons.
Qed.

Lemma match_tool_type_absent tc tts :
  names_tool_type tts tc = false → match_tool_type tc tts = Ok None.
Proof.
  induction tts as [|tt tts IH]; [done|].
  rewrite names_tool_type_cons, orb_false_iff. intros [Htt Htts].
  simpl. rewrite Htt. by apply IH.
Qed.

Lemma match_tool_type_present tc tts :
  names_tool_type tts tc = true →
  match_tool_type tc tts = (tool ← resolve tts tc; Ok (Some tool)).
Proof.
  induction tts as [|tt tts IH]; [done|].
  rewrite names_tool_type_cons. unfold resolve. simpl.
  case_bool_decide as Htt; simpl.
  - intros _. by rewrite decide_True.
  - intros Htts. rewrite decide_False by done.
    rewrite (IH Htts). unfold resolve.
    by destruct (list_find _ tts) as [[i tt']|].
Qed.

(** A raise of the inner loop is the raise of [from_tool_call] of a tool
    type carrying the reported name. *)
Lemma match_tool_type_Raise tc tts (e : exn) :
  match_tool_type tc tts = Raise e →
  ∃ tt, tt ∈ tts ∧ name (function tc) = __name__ tt
        ∧ from_tool_call tt tc = Raise e.
Proof.
  induction tts as [|tt tts IH]; [done|]. simpl.
  case_bool_decide as Htt.
  - intros [H|(t & _ & [=])]%bind_Raise.
    exists tt. split; [by left | done].
  - intros (tt' & Hin & Hname & Hraise)%IH.
    exists tt'. split; [by right | done].
Qed.

Lemma extract_loop_spec tcs tts (acc : list OpenAITool) :
  extract_loop acc tcs tts
  = (out ← tools_spec tts tcs; Ok (acc ++ out)).
Proof.
  unfold tools_spec. revert acc.
  induction tcs as [|tc tcs IH]; intros acc; simpl.
  - by rewrite app_nil_r.
  - rewrite filter_cons.
    destruct (names_tool_type tts tc) eqn:Hname.
    + destruct (decide (Is_true true)) as [_|Hn]; [|by destruct Hn].
      rewrite (match_tool_type_present _ _ Hname). simpl.
      destruct (resolve tts tc) as [tool|e]; [|done]. simpl.
      rewrite IH.
      destruct (resolve_all tts _) as [out|e]; [|done]. simpl.
      by rewrite <- app_assoc.
    + destruct (decide (Is_true false)) as [[]|_].
      rewrite (match_tool_type_absent _ _ Hname). simpl. apply IH.
Qed.

Lemma extract_loop_Raise tcs tts (acc : list OpenAITool) (e : exn) :
  extract_loop acc tcs tts = Raise e →
  ∃ tc tt, tc ∈ tcs ∧ tt ∈ tts ∧ name (function tc) = __name__ tt
           ∧ from_tool_call tt tc = Raise e.
Proof.
  revert acc. induction tcs as [|tc tcs IH]; intros acc; [done|]. simpl.
  intros [H|(found & Hfound & H)]%bind_Raise.
  - apply match_tool_type_Raise in H as (tt & Hin & Hname & Hraise).
    exists tc, tt. split; [by left | done].
  - destruct found as [tool|];
      apply IH in H as (tc' & tt & Hin & Htt & Hname & Hraise);
      exists tc', tt; (split; [by right | done]).
Qed.

Lemma tools_spec_absent tcs tts :
  (∀ tc, tc ∈ tcs → names_tool_type tts tc = false) →
  tools_spec (OpenAITool:=OpenAITool) tts tcs = Ok [].
Proof.
  intros Habsent. unfold tools_spec.
  induction tcs as [|tc tcs IH]; [done|].
  rewrite filter_cons.
  destruct (decide _) as [Hd|_].
  - rewrite (Habsent tc) in Hd; [done | by left].
  - apply IH. intros tc' Hin. apply Habsent. by right.
Qed.

(** Reading [tools] once both guards have passed. *)
Lemma tools_unfold self tts tcs :
  tool_types self = Some tts → tts ≠ [] →
  tool_calls self = Ok (Some tcs) → tcs ≠ [] →
  tools self = (out ← extract_loop [] tcs tts; Ok (Some out)).
Proof.
  intros Htts Hne Htcs Hne'. unfold tools.
  rewrite Htts, Htcs. simpl.
  destruct tts as [|tt tts]; [done|]. destruct tcs as [|tc tcs]; [done|].
  done.
Qed.

(** C9. For a completion with a non-empty tool-type list and non-empty
    tool calls, [tools] returns the calls whose reported function name is
    the name of some tool type, in the order the provider gave them, each
    resolved by the first tool type of that name; calls naming no tool
    type are left out without an error.  The only way for [tools] to
    raise is that [from_tool_call] raises on a call that does name a tool
    type. *)
Theorem tools_resolves_named_calls_in_order self tts tcs :
  tool_types self = Some tts → tts ≠ [] →
  tool_calls self = Ok (Some tcs) → tcs ≠ [] →
  tools self
  = (resolved ←
       resolve_all tts
         (filter (λ tc, bool_decide (name (function tc) ∈ __name__ <$> tts))
                 tcs);
     Ok (Some resolved))
  ∧ (∀ e, tools self = Raise e →
          ∃ tc tt, tc ∈ tcs ∧ tt ∈ tts ∧ name (function tc) = __name__ tt
                   ∧ from_tool_call tt tc = Raise e).
Proof.
  intros Htts Hne Htcs Hne'.
  rewrite (tools_unfold self tts tcs Htts Hne Htcs Hne'). split.
  - rewrite extract_loop_spec. unfold tools_spec.
    by destruct (resolve_all tts _).
  - intros e [H|(out & _ & [=])]%bind_Raise.
    by apply extract_loop_Raise in H.
Qed.

(** C3, as amended.  When every tool call of a completed response names
    a function absent from the (non-empty) active tool list, nothing is
    raised, neither when the wrapper is constructed nor when the accessors
    are read: [tools] is the empty list, the unknown calls being left out,
    and [tool] is [None]. *)
Theorem tools_omits_unknown_tool_calls self tts tcs :
  tool_types self = Some tts → tts ≠ [] →
  tool_calls self = Ok (Some tcs) → tcs ≠ [] →
  (∀ tc, tc ∈ tcs → name (function tc) ∉ __name__ <$> tts) →
  new (completion self) (tool_types self) = Ok self
  ∧ tools self = Ok (Some [])
  ∧ tool self = Ok None.
Proof.
  intros Htts Hne Htcs Hne' Habsent.
  assert (tools self = Ok (Some [])) as Htools.
  { rewrite (tools_unfold self tts tcs Htts Hne Htcs Hne').
    rewrite extract_loop_spec, tools_spec_absent; [done|].
    intros tc Hin. unfold names_tool_type.
    by rewrite bool_decide_eq_false_2 by by apply Habsent. }
  split; [by destruct self|]. split; [done|].
  unfold tool. by rewrite Htools.
Qed.

End chat_completion.

(** ** The chat completion wrapper on concrete responses *)

Lemma tools_resolves_named_calls_in_order_witness :
  ChatTypes.tools (Scenario.response Scenario.mixed_calls)
  = (resolved ←
       ChatTypes.resolve_all [Scenario.recommend_book]
         (filter
            (λ tc, bool_decide
                     (ChatTypes.name (ChatTypes.function tc)
                      ∈ ChatTypes.__name__ <$> [Scenario.recommend_book]))
            Scenario.mixed_calls);
     Ok (Some resolved))
  ∧ (∀ e, ChatTypes.tools (Scenario.response Scenario.mixed_calls) = Raise e →
          ∃ tc tt, tc ∈ Scenario.mixed_calls ∧ tt ∈ [Scenario.recommend_book]
                   ∧ ChatTypes.name (ChatTypes.function tc)
                     = ChatTypes.__name__ tt
                   ∧ ChatTypes.from_tool_call tt tc = Raise e).
Proof.
  apply (tools_resolves_named_calls_in_order
           (Scenario.response Scenario.mixed_calls)
           [Scenario.recommend_book] Scenario.mixed_calls).
  - reflexivity.
  - discriminate.
  - reflexivity.
  - discriminate.
Defined.

Example tools_mixed_calls :
  ChatTypes.tools (Scenario.response Scenario.mixed_calls)
  = Ok (Some ["Dune"; "Emma"]).
Proof. reflexivity. Qed.

Lemma tools_omits_unknown_tool_calls_witness :
  ChatTypes.new
    (ChatTypes.completion (Scenario.response Scenario.weather_calls))
    (ChatTypes.tool_types (Scenario.response Scenario.weather_calls))
  = Ok (Scenario.response Scenario.weather_calls)
  ∧ ChatTypes.tools (Scenario.response Scenario.weather_calls) = Ok (Some [])
  ∧ ChatTypes.tool (Scenario.response Scenario.weather_calls) = Ok None.
Proof.
  apply (tools_omits_unknown_tool_calls
           (Scenario.response Scenario.weather_calls)
           [Scenario.recommend_book] Scenario.weather_calls).
  - reflexivity.
  - discriminate.
  - reflexivity.
  - discriminate.
  - intros tc Hin Hname.
    apply list_elem_of_singleton in Hin. subst tc.
    apply list_elem_of_singleton in Hname. discriminate Hname.
Defined.

(** C3, counterexample.  The response names [lookup_weather] while the
    active tool list holds [recommend_book] only: construction succeeds,
    and so do both accessors; [tools] is the empty list and [tool] is
    [None], so no error at all, of whatever class, is raised on access. *)
Lemma unknown_tool_call_raises_nothing :
  ChatTypes.new
    (ChatTypes.completion (Scenario.response Scenario.weather_calls))
    (Some [Scenario.recommend_book])
  = Ok (Scenario.response Scenario.weather_calls)
  ∧ ChatTypes.tools (Scenario.response Scenario.weather_calls) = Ok (Some [])
  ∧ ChatTypes.tool (Scenario.response Scenario.weather_calls) = Ok None
  ∧ ¬ raises (ChatTypes.tools (Scenario.response Scenario.weather_calls))
  ∧ ¬ raises (ChatTypes.tool (Scenario.response Scenario.weather_calls)).
Proof.
  repeat split; intros [e He]; discriminate He.
Qed.

(** ** Response chunks *)

Arguments CohereChunk.chunk {_}.
Arguments CohereChunk.content {_}.
Arguments CohereChunk.finish_reasons {_}.
Arguments CohereChunk.model {_}.
Arguments CohereChunk.id {_}.
Arguments CohereChunk.usage {_}.
Arguments CohereChunk.input_tokens {_}.
Arguments CohereChunk.output_tokens {_}.
Arguments CohereChunk.meta {_}.
Arguments CohereChunk.billed_units {_}.
Arguments CohereChunk.billed_input_tokens {_}.
Arguments CohereChunk.billed_output_tokens {_}.
Arguments CohereChunk.response_generation_id {_}.
Arguments CohereChunk.StreamedChatResponse_StreamStart {_}.
Arguments CohereChunk.StreamedChatResponse_TextGeneration {_}.
Arguments CohereChunk.StreamedChatResponse_StreamEnd {_}.

Section chunk_accessors.

Context {Number : Type}.

Lemma openai_usage_total (self : OpenAIChunk.OpenAICallResponseChunk) :
  OpenAIChunk.usage self
  = Ok (match OpenAIChunk.chunk_usage (OpenAIChunk.chunk self) with
        | OpenAIChunk.Attr (Some u) => Some u
        | _ => None
        end).
Proof.
  unfold OpenAIChunk.usage.
  by destruct (OpenAIChunk.chunk_usage _) as [|[u|]].
Qed.

Lemma cohere_usage_total (self : CohereChunk.CohereCallResponseChunk Number) :
  CohereChunk.usage self
  = Ok (match CohereChunk.chunk self with
        | CohereChunk.StreamedChatResponse_StreamEnd _ r =>
            CohereChunk.meta r ≫= CohereChunk.billed_units
        | _ => None
        end).
Proof.
  unfold CohereChunk.usage.
  destruct (CohereChunk.chunk self) as [g|t|f r|ev]; try done.
  simpl. by destruct (CohereChunk.meta r).
Qed.

(** C8. Every accessor of the OpenAI and of the Cohere chunk wrapper
    returns, on every chunk: none of the index or attribute reads in
    their bodies can raise.  [content] is a string, empty when the chunk
    has no choices, no delta, or no content (OpenAI), or is not a text
    event (Cohere); the finish reasons are the empty list (OpenAI) or
    [None] (Cohere) when no choice or event reports one; [usage],
    [input_tokens] and [output_tokens] are [None] when the chunk carries
    no usage; [model] and [id] are the chunk's required fields for OpenAI
    and [None] for Cohere when the event has none. *)
Theorem chunk_accessors_total
    (o : OpenAIChunk.OpenAICallResponseChunk)
    (c : CohereChunk.CohereCallResponseChunk Number) :
  let o_usage :=
    match OpenAIChunk.chunk_usage (OpenAIChunk.chunk o) with
    | OpenAIChunk.Attr (Some u) => Some u
    | _ => None
    end in
  let c_usage :=
    match CohereChunk.chunk c with
    | CohereChunk.StreamedChatResponse_StreamEnd _ r =>
        CohereChunk.meta r ≫= CohereChunk.billed_units
    | _ => None
    end in
  (OpenAIChunk.content o
   = Ok (match OpenAIChunk.chunk_choices (OpenAIChunk.chunk o) with
         | choice :: _ =>
             match OpenAIChunk.delta choice with
             | Some d => default "" (OpenAIChunk.delta_content d)
             | None => ""
             end
         | [] => ""
         end)
   ∧ OpenAIChunk.finish_reasons o
     = Ok (filter (λ r, r ≠ "")
             (omap OpenAIChunk.finish_reason
                (OpenAIChunk.chunk_choices (OpenAIChunk.chunk o))))
   ∧ OpenAIChunk.model o = Ok (OpenAIChunk.chunk_model (OpenAIChunk.chunk o))
   ∧ OpenAIChunk.id o = Ok (OpenAIChunk.chunk_id (OpenAIChunk.chunk o))
   ∧ OpenAIChunk.usage o = Ok o_usage
   ∧ OpenAIChunk.input_tokens o = Ok (OpenAIChunk.prompt_tokens <$> o_usage)
   ∧ OpenAIChunk.output_tokens o
     = Ok (OpenAIChunk.completion_tokens <$> o_usage))
  ∧ (CohereChunk.content c
     = Ok (match CohereChunk.chunk c with
           | CohereChunk.StreamedChatResponse_TextGeneration t => t
           | _ => ""
           end)
     ∧ CohereChunk.finish_reasons c
       = Ok (match CohereChunk.chunk c with
             | CohereChunk.StreamedChatResponse_StreamEnd r _ => Some [r]
             | _ => None
             end)
     ∧ CohereChunk.model c = Ok None
     ∧ CohereChunk.id c
       = Ok (match CohereChunk.chunk c with
             | CohereChunk.StreamedChatResponse_StreamStart g => Some g
             | CohereChunk.StreamedChatResponse_StreamEnd _ r =>
                 CohereChunk.response_generation_id r
             | _ => None
             end)
     ∧ CohereChunk.usage c = Ok c_usage
     ∧ CohereChunk.input_tokens c
       = Ok (c_usage ≫= CohereChunk.billed_input_tokens)
     ∧ CohereChunk.output_tokens c
       = Ok (c_usage ≫= CohereChunk.billed_output_tokens)).
Proof.
  intros o_usage c_usage. split.
  - repeat split.
    + unfold OpenAIChunk.content.
      destruct (OpenAIChunk.chunk_choices _) as [|choice choices]; [done|].
      simpl. destruct (OpenAIChunk.delta choice) as [d|]; [|done].
      by destruct (OpenAIChunk.delta_content d) as [[|a s]|].
    + unfold OpenAIChunk.finish_reasons. f_equal.
      induction (OpenAIChunk.chunk_choices _) as [|choice choices IH];
        [done|].
      simpl. destruct (OpenAIChunk.finish_reason choice) as [[|a s]|];
        simpl; [done| |done].
      rewrite filter_cons, decide_True by done. by f_equal.
    + apply openai_usage_total.
    + unfold OpenAIChunk.input_tokens. rewrite openai_usage_total.
      fold o_usage. by destruct o_usage.
    + unfold OpenAIChunk.output_tokens. rewrite openai_usage_total.
      fold o_usage. by destruct o_usage.
  - repeat split.
    + unfold CohereChunk.content. by destruct (CohereChunk.chunk c).
    + unfold CohereChunk.finish_reasons. by destruct (CohereChunk.chunk c).
    + unfold CohereChunk.id. by destruct (CohereChunk.chunk c).
    + apply cohere_usage_total.
    + unfold CohereChunk.input_tokens. rewrite cohere_usage_total.
      fold c_usage. by destruct c_usage.
    + unfold CohereChunk.output_tokens. rewrite cohere_usage_total.
      fold c_usage. by destruct c_usage.
Qed.

End chunk_accessors.

(** A chunk without choices and without a usage attribute, and a Cohere
    event that is neither start, text nor end. *)
Example openai_empty_chunk :
  let o :=
    {| OpenAIChunk.chunk :=
         {| OpenAIChunk.chunk_id := "id";
            OpenAIChunk.chunk_choices := [];
            OpenAIChunk.chunk_model := "gpt-4o-mini";
            OpenAIChunk.chunk_usage := OpenAIChunk.Missing |} |} in
  OpenAIChunk.content o = Ok ""
  ∧ OpenAIChunk.finish_reasons o = Ok []
  ∧ OpenAIChunk.usage o = Ok None
  ∧ OpenAIChunk.input_tokens o = Ok None
  ∧ OpenAIChunk.output_tokens o = Ok None.
Proof. by repeat split. Qed.

Example cohere_other_event :
  let c : CohereChunk.CohereCallResponseChunk Z :=
    {| CohereChunk.chunk :=
         CohereChunk.StreamedChatResponse_Other Z "tool-calls-chunk" |} in
  CohereChunk.content c = Ok ""
  ∧ CohereChunk.finish_reasons c = Ok None
  ∧ CohereChunk.model c = Ok None
  ∧ CohereChunk.id c = Ok None
  ∧ CohereChunk.usage c = Ok None
  ∧ CohereChunk.input_tokens c = Ok None
  ∧ CohereChunk.output_tokens c = Ok None.
Proof. by repeat split. Qed.

(** ** The stream coordinator *)

Arguments Stream.content_delta {_}.
Arguments Stream.accumulated_content {_ _}.
Arguments Stream.completed_tool_calls {_ _}.
Arguments Stream.message_param {_ _}.
Arguments Stream.final_usage {_ _}.
Arguments Stream.start {_ _}.
Arguments Stream.receive {_ _}.
Arguments Stream.terminal {_ _}.
Arguments Stream.consume {_ _}.
Arguments Stream.concat_deltas {_ _}.

Lemma string_app_nil_r (s : string) : s +:+ "" = s.
Proof.
  induction s as [|a s IH]; [done|].
  change (String a s +:+ "") with (String a (s +:+ "")).
  by rewrite IH.
Qed.

Lemma string_app_assoc (s1 s2 s3 : string) :
  (s1 +:+ s2) +:+ s3 = s1 +:+ (s2 +:+ s3).
Proof.
  induction s1 as [|a s1 IH]; [done|].
  change ((String a s1 +:+ s2) +:+ s3) with (String a ((s1 +:+ s2) +:+ s3)).
  change (String a s1 +:+ (s2 +:+ s3)) with (String a (s1 +:+ (s2 +:+ s3))).
  by rewrite IH.
Qed.

Section stream_accumulation.

Context {ToolCall Usage : Type}.
Implicit Types (items : list (Stream.chunk Usage * option ToolCall)).
Implicit Types (st : Stream.StreamState ToolCall Usage).

Lemma foldl_receive_content items st :
  Stream.accumulated_content (foldl Stream.receive st items)
  = Stream.accumulated_content st +:+ Stream.concat_deltas items.
Proof.
  revert st. induction items as [|[c tool] items IH]; intros st; simpl.
  - by rewrite string_app_nil_r.
  - rewrite IH. simpl. apply string_app_assoc.
Qed.

Lemma foldl_receive_tool_calls items st :
  Stream.completed_tool_calls (foldl Stream.receive st items)
  = Stream.completed_tool_calls st ++ omap snd items.
Proof.
  revert st. induction items as [|[c tool] items IH]; intros st; simpl.
  - by rewrite app_nil_r.
  - rewrite IH. simpl. destruct tool as [t|]; simpl; [|done].
    by rewrite <- app_assoc.
Qed.

Lemma foldl_receive_message_param items st :
  Stream.message_param (foldl Stream.receive st items)
  = Stream.message_param st.
Proof.
  revert st. induction items as [|[c tool] items IH]; intros st; simpl;
    [done|]. by rewrite IH.
Qed.

Lemma concat_deltas_app items1 items2 :
  Stream.concat_deltas (items1 ++ items2)
  = Stream.concat_deltas items1 +:+ Stream.concat_deltas items2.
Proof.
  induction items1 as [|[c tool] items1 IH]; simpl; [done|].
  unfold Stream.concat_deltas in *. simpl. rewrite IH.
  symmetry. apply string_app_assoc.
Qed.

(** C4. Consuming a finite sequence of stream items to exhaustion leaves
    as accumulated content the in-order concatenation of the chunks'
    content deltas; accumulation is a homomorphism from concatenation of
    item sequences to concatenation of strings; no assistant turn exists
    before exhaustion, and the one synthesized at exhaustion carries that
    very string together with all completed tool calls, in order. *)
Theorem stream_accumulation_is_concatenation items1 items2 :
  Stream.accumulated_content (Stream.consume items1)
  = Stream.concat_deltas items1
  ∧ Stream.accumulated_content (Stream.consume (items1 ++ items2))
    = Stream.accumulated_content (Stream.consume items1)
      +:+ Stream.accumulated_content (Stream.consume items2)
  ∧ Stream.message_param (foldl Stream.receive Stream.start items1) = None
  ∧ Stream.message_param (Stream.consume items1)
    = Some {| Stream.role := "assistant";
              Stream.content := Stream.concat_deltas items1;
              Stream.tool_calls := omap snd items1 |}.
Proof.
  assert (∀ items,
            Stream.accumulated_content (Stream.consume items)
            = Stream.concat_deltas items) as Hcontent.
  { intros items. unfold Stream.consume. simpl.
    by rewrite foldl_receive_content. }
  split; [apply Hcontent|]. split.
  - rewrite !Hcontent. apply concat_deltas_app.
  - split; [by rewrite foldl_receive_message_param|].
    unfold Stream.consume. simpl.
    by rewrite foldl_receive_content, foldl_receive_tool_calls.
Qed.

End stream_accumulation.

(** The spec's example, chunks ["Hello"] and [" world"], and the shape of
    [test_mistral_stream]: a content chunk followed by a chunk that
    carries a completed tool call and the usage. *)
Example stream_hello_world :
  let chunk s : Stream.chunk unit :=
    {| Stream.content_delta := s; Stream.finish_reason := None;
       Stream.usage := None |} in
  let st := Stream.consume [(chunk "Hello", @None unit); (chunk " world", None)] in
  Stream.accumulated_content st = "Hello world"
  ∧ Stream.message_param st
    = Some {| Stream.role := "assistant"; Stream.content := "Hello world";
              Stream.tool_calls := [] |}.
Proof. by vm_compute. Qed.

Example stream_content_then_tool_call :
  let st :=
    Stream.consume
      [({| Stream.content_delta := "content"; Stream.finish_reason := None;
           Stream.usage := None |}, None);
       ({| Stream.content_delta := ""; Stream.finish_reason := None;
           Stream.usage := Some (1, 1, 2)%Z |}, Some "FormatBook")] in
  Stream.message_param st
  = Some {| Stream.role := "assistant"; Stream.content := "content";
            Stream.tool_calls := ["FormatBook"] |}
  ∧ Stream.final_usage st = Some (1, 1, 2)%Z.
Proof. by vm_compute. Qed.

(* ===================================================================== *)
(** * Further properties of the same code                                 *)
(* ===================================================================== *)

(** ** The call factory: what the dispatch forwards *)

Section call_factory_dispatch.

Context {Tool ResponseModel OutputParser Client CallParams : Type}.
Variable default_call_params : CallParams.

(** X1. Once a response model is given, the [tools] argument plays no
    part: [base_call] hands it to neither extraction factory, so two calls
    that differ only in [tools] give the same outcome. *)
Theorem base_call_response_model_ignores_tools
    (model : string) (stream : bool) (tools tools' : option (list Tool))
    (response_model : ResponseModel) (output_parser : option OutputParser)
    (json_mode : bool) (client : option Client)
    (call_params : option CallParams) :
  CallFactory.base_call default_call_params model stream tools
    (Some response_model) output_parser json_mode client call_params
  = CallFactory.base_call default_call_params model stream tools'
      (Some response_model) output_parser json_mode client call_params.
Proof. unfold CallFactory.base_call. by destruct stream, output_parser. Qed.

End call_factory_dispatch.

(** ** Mistral: message conversion as a list operation *)

Section mistral_conversion.

Import Message Mistral.

Lemma convert_loop_acc (mps : list message_param) (acc : list message) :
  convert_loop acc mps = (out ← convert_loop [] mps; Ok (acc ++ out)).
Proof.
  revert acc. induction mps as [|mp mps IH]; intros acc; simpl.
  - by rewrite app_nil_r.
  - destruct (convert_message_param mp) as [m|e]; [|done]. simpl.
    rewrite (IH (acc ++ [m])), (IH [m]).
    destruct (convert_loop [] mps) as [out|e]; [|done]. simpl.
    by rewrite <- app_assoc.
Qed.

Lemma convert_message_params_cons (mp : message_param)
    (mps : list message_param) :
  convert_message_params (mp :: mps)
  = (m ← convert_message_param mp;
     out ← convert_message_params mps;
     Ok (m :: out)).
Proof.
  unfold convert_message_params. simpl.
  destruct (convert_message_param mp) as [m|e]; [|done]. simpl.
  by rewrite convert_loop_acc.
Qed.

Lemma convert_message_param_Ok (mp : message_param) (m : message) :
  convert_message_param mp = Ok m → converts_to mp m.
Proof.
  destruct mp as [r [s|ps]|k c]; simpl.
  - intros [= <-]. constructor.
  - destruct ps as [|[t|d mt|i n a|i v] [|p ps]]; simpl; try discriminate.
    intros [= <-]. constructor.
  - intros [= <-]. constructor.
Qed.

Lemma convert_message_params_Ok (mps : list message_param)
    (out : list message) :
  convert_message_params mps = Ok out → Forall2 converts_to mps out.
Proof.
  revert out. induction mps as [|mp mps IH]; intros out.
  - intros [= <-]. constructor.
  - rewrite convert_message_params_cons.
    intros (m & Hm & H)%bind_Ok.
    apply bind_Ok in H as (out' & Hout' & [= <-]).
    constructor; [by apply convert_message_param_Ok | by apply IH].
Qed.

(** X2. Converting a concatenation is converting both halves and
    concatenating, with the error of the left half taking precedence:
    every message is converted on its own, earlier ones first. *)
Theorem convert_message_params_app (mps1 mps2 : list message_param) :
  convert_message_params (mps1 ++ mps2)
  = (out1 ← convert_message_params mps1;
     out2 ← convert_message_params mps2;
     Ok (out1 ++ out2)).
Proof.
  induction mps1 as [|mp mps1 IH].
  - simpl. by destruct (convert_message_params mps2).
  - rewrite <- app_comm_cons, !convert_message_params_cons, IH.
    destruct (convert_message_param mp) as [m|e]; [|done]. simpl.
    destruct (convert_message_params mps1) as [out1|e]; [|done]. simpl.
    by destruct (convert_message_params mps2).
Qed.

(** X3. A successful conversion neither drops, adds nor reorders
    messages, and keeps every role: the result has the length of the input
    and, position by position, the input's roles. *)
Theorem convert_message_params_keeps_roles (mps : list message_param)
    (out : list message) :
  convert_message_params mps = Ok out →
  length out = length mps ∧ role <$> out = param_role <$> mps.
Proof.
  intros H%convert_message_params_Ok.
  induction H as [|mp m mps out Hm _ [IHlen IHrole]]; [done|].
  rewrite !fmap_cons, IHrole. simpl. rewrite IHlen. split; [done|].
  by destruct Hm.
Qed.

(** X4. Converted messages are a fixed point: read again as incoming
    messages, they convert to themselves, so converting twice is
    converting once. *)
Theorem convert_message_params_converted (out : list message) :
  convert_message_params (as_message_param <$> out) = Ok out.
Proof.
  induction out as [|m out IH]; [done|].
  rewrite fmap_cons, convert_message_params_cons, IH.
  by destruct m.
Qed.

End mistral_conversion.

Lemma convert_message_params_keeps_roles_witness :
  length [Mistral.NativeMessage Mistral.SystemMessage "be brief";
          Mistral.TextMessage "user" "hi"] = 2
  ∧ Mistral.role <$> [Mistral.NativeMessage Mistral.SystemMessage "be brief";
                      Mistral.TextMessage "user" "hi"]
    = Mistral.param_role
      <$> [Mistral.Native Mistral.SystemMessage "be brief";
           Mistral.BaseMessageParam "user"
             (Message.Parts [Message.TextPart "hi"])].
Proof.
  apply (convert_message_params_keeps_roles
           [Mistral.Native Mistral.SystemMessage "be brief";
            Mistral.BaseMessageParam "user"
              (Message.Parts [Message.TextPart "hi"])]
           [Mistral.NativeMessage Mistral.SystemMessage "be brief";
            Mistral.TextMessage "user" "hi"]).
  reflexivity.
Defined.

(** ** Mistral: common call parameters as a map operation *)

Section mistral_common_params_updates.

Import Mistral.
Context {V : Type}.
Implicit Types (m : gmap string (option V)).

Lemma convert_common_params_Some m (key' : string) (v : V) :
  convert_common_params m !! key' = Some v
  ↔ ∃ key, key ∈ recognised ∧ key' = renamed key ∧ m !! key = Some (Some v).
Proof.
  unfold convert_common_params. split.
  - intros H%elem_of_list_to_map_2.
    apply list_elem_of_omap in H as ([key value] & Hin & Hitem).
    apply elem_of_map_to_list in Hin.
    apply convert_item_Some in Hitem as (Hk & Hk' & ->).
    by exists key.
  - intros (key & Hk & Hk' & Hlookup).
    apply elem_of_list_to_map_1.
    + apply convert_items_NoDup, NoDup_fst_map_to_list.
    + apply list_elem_of_omap. exists (key, Some v). split.
      * by apply elem_of_map_to_list.
      * by apply convert_item_Some.
Qed.

(** X5. Whatever the input mapping holds, the keys of the converted
    mapping are among temperature, max_tokens, top_p, random_seed and
    stop; in particular seed itself never comes out. *)
Theorem convert_common_params_keys m (key' : string) (v : V) :
  convert_common_params m !! key' = Some v →
  key' ∈ ["temperature"; "max_tokens"; "top_p"; "random_seed"; "stop"].
Proof.
  intros (key & Hkey & -> & _)%convert_common_params_Some.
  unfold recognised in Hkey. rewrite !elem_of_cons, elem_of_nil in Hkey.
  destruct Hkey as [->|[->|[->|[->|[->|[]]]]]]; cbn;
    rewrite !elem_of_cons; tauto.
Qed.

(** X6. Setting a recognised key in the input acts on the renamed key of
    the output: a value other than [None] is stored under it, [None]
    removes it; all other entries of the output stay. *)
Theorem convert_common_params_insert m (key : string) (value : option V) :
  key ∈ ["temperature"; "max_tokens"; "top_p"; "seed"; "stop"] →
  convert_common_params (<[key := value]> m)
  = match value with
    | Some v => <[renamed key := v]> (convert_common_params m)
    | None => delete (renamed key) (convert_common_params m)
    end.
Proof.
  intros Hkey. apply map_eq. intros key'. apply option_eq. intros w.
  rewrite convert_common_params_Some.
  assert (convert_common_params m !! key' = Some w
          ↔ ∃ k, k ∈ recognised ∧ key' = renamed k ∧ m !! k = Some (Some w))
    as Hm by apply convert_common_params_Some.
  split.
  - intros (k & Hk & -> & Hlookup).
    destruct (decide (key = k)) as [->|Hne].
    + rewrite lookup_insert_eq in Hlookup. injection Hlookup as ->.
      by rewrite lookup_insert_eq.
    + rewrite lookup_insert_ne in Hlookup by done.
      assert (renamed key ≠ renamed k) as Hren.
      { intros Heq. by apply renamed_inj in Heq. }
      assert (convert_common_params m !! renamed k = Some w) as Hw.
      { apply convert_common_params_Some. by exists k. }
      destruct value as [v|];
        [by rewrite lookup_insert_ne | by rewrite lookup_delete_ne].
  - intros Hlookup.
    destruct (decide (renamed key = key')) as [<-|Hne].
    + destruct value as [v|].
      * rewrite lookup_insert_eq in Hlookup. injection Hlookup as ->.
        exists key. by rewrite lookup_insert_eq.
      * by rewrite lookup_delete_eq in Hlookup.
    + assert (convert_common_params m !! key' = Some w) as Hw.
      { destruct value as [v|];
          [by rewrite lookup_insert_ne in Hlookup
          | by rewrite lookup_delete_ne in Hlookup]. }
      apply Hm in Hw as (k & Hk & -> & Hk').
      exists k. repeat split; [done|].
      rewrite lookup_insert_ne; [done|]. by intros ->.
Qed.

(** X7. Setting a key outside the five recognised ones changes nothing in
    the output, whatever the value; this includes random_seed, which is
    only a name on the output side. *)
Theorem convert_common_params_insert_unrecognised m (key : string)
    (value : option V) :
  key ∉ ["temperature"; "max_tokens"; "top_p"; "seed"; "stop"] →
  convert_common_params (<[key := value]> m) = convert_common_params m.
Proof.
  intros Hkey. apply map_eq. intros key'. apply option_eq. intros w.
  rewrite !convert_common_params_Some.
  split; intros (k & Hk & -> & Hlookup); exists k; (repeat split; [done|]).
  - rewrite lookup_insert_ne in Hlookup; [done|]. by intros ->.
  - rewrite lookup_insert_ne; [done|]. by intros ->.
Qed.

End mistral_common_params_updates.

Lemma convert_common_params_keys_witness :
  "random_seed"
  ∈ ["temperature"; "max_tokens"; "top_p"; "random_seed"; "stop"].
Proof.
  apply (convert_common_params_keys
           ({[ "seed" := Some 42%Z ]} : gmap string (option Z))
           "random_seed" 42%Z).
  by vm_compute.
Defined.

Lemma convert_common_params_insert_witness :
  Mistral.convert_common_params
    (<["seed" := None]> ({[ "seed" := Some 42%Z; "top_p" := Some 1%Z ]}
                           : gmap string (option Z)))
  = delete (Mistral.renamed "seed")
      (Mistral.convert_common_params
         ({[ "seed" := Some 42%Z; "top_p" := Some 1%Z ]}
            : gmap string (option Z))).
Proof.
  apply (convert_common_params_insert
           ({[ "seed" := Some 42%Z; "top_p" := Some 1%Z ]}
              : gmap string (option Z)) "seed" None).
  rewrite !elem_of_cons. tauto.
Defined.

Lemma convert_common_params_insert_unrecognised_witness :
  Mistral.convert_common_params
    (<["random_seed" := Some 7%Z]> ({[ "seed" := Some 42%Z ]}
                                      : gmap string (option Z)))
  = Mistral.convert_common_params
      ({[ "seed" := Some 42%Z ]} : gmap string (option Z)).
Proof.
  apply (convert_common_params_insert_unrecognised
           ({[ "seed" := Some 42%Z ]} : gmap string (option Z))
           "random_seed" (Some 7%Z)).
  rewrite !elem_of_cons, elem_of_nil.
  intros [H|[H|[H|[H|[H|[]]]]]]; discriminate H.
Defined.

(** ** Mistral setup: what is kept, what is set, what can fail *)

Arguments Mistral.prompt_template {_ _ _}.
Arguments Mistral.create_or_stream {_ _ _}.
Arguments Mistral.Setup {_ _ _}.
Arguments Mistral.get_create_fn {_}.
Arguments Mistral.get_async_create_fn {_}.

Lemma last_snoc_Some {A} (l : list A) (x : A) : last (l ++ [x]) = Some x.
Proof. by rewrite last_snoc. Qed.

Lemma removelast_snoc {A} (l : list A) (x : A) : removelast (l ++ [x]) = l.
Proof. apply removelast_last. Qed.

Section mistral_setup_more.

Import Mistral.
Context {Fn FnArgs DynamicConfig Tool ToolType CallParams Client V : Type}.
Variable utils_setup_call :
  Fn → FnArgs → DynamicConfig → option (list Tool) → CallParams →
  option string * list message_param * option (list ToolType)
  * gmap string (kwarg V).
Variable json_mode_content : option ToolType → string.
Variable fn_is_async : Fn → bool.
Variable Mistral_client : string → Client.

Local Abbreviation setup_call :=
  (setup_call utils_setup_call json_mode_content fn_is_async Mistral_client).
Local Abbreviation mode_branch := (mode_branch json_mode_content).

Lemma mistral_mode_branch_Ok (json_mode extract : bool)
    (tts : option (list ToolType)) (ms ms' : list message)
    (kw kw' : gmap string (kwarg V)) :
  mode_branch json_mode extract tts ms kw = Ok (ms', kw') →
  (json_mode = true
   ∧ kw' = delete "tools"
             (<["response_format" := KResponseFormat "json_object"]> kw)
   ∧ ∃ m, last ms = Some m
          ∧ ms' = (if bool_decide (role m = "user") then
                     removelast ms
                     ++ [add_content m (json_mode_content (first_tool tts))]
                   else
                     ms ++ [NativeMessage UserMessage
                              (strip (json_mode_content (first_tool tts)))]))
  ∨ (json_mode = false ∧ extract = true ∧ truthy_opt_list tts = true
     ∧ ms' = ms ∧ kw' = <["tool_choice" := KToolChoice "any"]> kw)
  ∨ (json_mode = false ∧ extract = false ∧ ms' = ms ∧ kw' = kw).
Proof.
  unfold Mistral.mode_branch. destruct json_mode.
  - intros (m & Hm & H)%bind_Ok. left.
    unfold index_last in Hm. destruct (last ms) as [m0|] eqn:Hlast; [|done].
    injection Hm as ->. injection H as <- <-.
    repeat split. exists m. split; [done|].
    destruct ms as [|m1 ms]; [done|]. by case_bool_decide.
  - destruct extract.
    + destruct (truthy_opt_list tts) eqn:Htts; [|done].
      intros [= <- <-]. right. left. by repeat split.
    + intros [= <- <-]. right. right. by repeat split.
Qed.

Lemma mistral_mode_branch_Raise (json_mode extract : bool)
    (tts : option (list ToolType)) (ms : list message)
    (kw : gmap string (kwarg V)) (e : exn) :
  mode_branch json_mode extract tts ms kw = Raise e →
  (e = IndexError ∧ json_mode = true ∧ ms = [])
  ∨ (e = AssertionError extraction_assert_msg ∧ json_mode = false
     ∧ extract = true ∧ truthy_opt_list tts = false).
Proof.
  unfold Mistral.mode_branch. destruct json_mode.
  - intros [H|(m & _ & [=])]%bind_Raise. left.
    unfold index_last in H. destruct (last ms) as [m|] eqn:Hlast; [done|].
    injection H as <-. apply last_None in Hlast. by repeat split.
  - destruct extract; [|done].
    destruct (truthy_opt_list tts) eqn:Htts; [done|].
    intros [= <-]. right. by repeat split.
Qed.

Variables (environ : gmap string string) (model : string)
  (client : option Client) (fn : Fn) (fn_args : FnArgs)
  (dynamic_config : DynamicConfig) (tools : option (list Tool))
  (call_params : CallParams).

Variables (base_template : option string) (base_messages : list message_param)
  (base_tool_types : option (list ToolType))
  (base_call_kwargs : gmap string (kwarg V)).

Lemma mistral_setup_call_inv (json_mode extract : bool)
    (r : setup ToolType Client V) :
  utils_setup_call fn fn_args dynamic_config tools call_params
  = (base_template, base_messages, base_tool_types, base_call_kwargs) →
  setup_call environ model client fn fn_args dynamic_config tools json_mode
    call_params extract = Ok r →
  ∃ ms ms' kw,
    convert_message_params base_messages = Ok ms
    ∧ mode_branch json_mode extract base_tool_types ms base_call_kwargs
      = Ok (ms', kw)
    ∧ r = Setup
          ((if fn_is_async fn then get_async_create_fn else get_create_fn)
             (match client with
              | None =>
                  Mistral_client (default "" (environ !! "MISTRAL_API_KEY"))
              | Some c => c
              end))
          base_template ms' base_tool_types
          (<["messages" := KMessages ms']> (<["model" := KModel model]> kw)).
Proof.
  intros base_setup. unfold Mistral.setup_call. rewrite base_setup.
  intros (ms & Hms & H)%bind_Ok.
  apply bind_Ok in H as ([ms' kw] & Hbranch & [= <-]).
  exists ms, ms', kw. repeat split; [done..|].
  by destruct (fn_is_async fn).
Qed.

(** X8. Whatever the mode, a returned setup sends the requested model
    and the final message list, overriding entries of those names the base
    setup may have produced, and hands back the prompt template and the
    tool types of the base setup unchanged. *)
Theorem mistral_setup_call_sets_model_and_messages
    (json_mode extract : bool) (r : setup ToolType Client V) :
  utils_setup_call fn fn_args dynamic_config tools call_params
  = (base_template, base_messages, base_tool_types, base_call_kwargs) →
  setup_call environ model client fn fn_args dynamic_config tools json_mode
    call_params extract = Ok r →
  call_kwargs r !! "model" = Some (KModel model)
  ∧ call_kwargs r !! "messages" = Some (KMessages (messages r))
  ∧ prompt_template r = base_template
  ∧ tool_types r = base_tool_types.
Proof.
  intros Hbase H.
  apply (mistral_setup_call_inv _ _ _ Hbase) in H as (ms & ms' & kw & _ & _ & ->).
  simpl.
  repeat split.
  - rewrite lookup_insert_ne by done. by rewrite lookup_insert_eq.
  - by rewrite lookup_insert_eq.
Qed.

(** X9. The frame of the setup: every entry of the base kwargs reaches
    the request untouched, except for model and messages, for tools and
    response_format in JSON mode, and for tool_choice in extraction mode.
    In particular the plain mode passes the tools through. *)
Theorem mistral_setup_call_frame (json_mode extract : bool)
    (r : setup ToolType Client V) (key : string) :
  utils_setup_call fn fn_args dynamic_config tools call_params
  = (base_template, base_messages, base_tool_types, base_call_kwargs) →
  setup_call environ model client fn fn_args dynamic_config tools json_mode
    call_params extract = Ok r →
  key ≠ "model" → key ≠ "messages" →
  (json_mode = true → key ≠ "tools" ∧ key ≠ "response_format") →
  (json_mode = false → extract = true → key ≠ "tool_choice") →
  call_kwargs r !! key = base_call_kwargs !! key.
Proof.
  intros Hbase H.
  apply (mistral_setup_call_inv _ _ _ Hbase) in H
    as (ms & ms' & kw & _ & Hbranch & ->).
  intros Hmodel Hmessages Hjson Hextract. simpl.
  do 2 (rewrite lookup_insert_ne by done).
  apply mistral_mode_branch_Ok in Hbranch
    as [(Hj & -> & _)|[(Hj & He & _ & _ & ->)|(_ & _ & _ & ->)]].
  - destruct (Hjson Hj) as [Htools Hformat].
    rewrite lookup_delete_ne by done. by rewrite lookup_insert_ne.
  - rewrite lookup_insert_ne; [done|]. intros <-. by apply (Hextract Hj He).
  - done.
Qed.

(** X10. The setup can fail in three ways only: a neutral message holds
    a part list other than one text part ([ValueError]); JSON mode meets
    an empty message list ([IndexError]); extraction is asked for without
    JSON mode and without any tool type ([AssertionError]). *)
Theorem mistral_setup_call_errors (json_mode extract : bool) (e : exn) :
  utils_setup_call fn fn_args dynamic_config tools call_params
  = (base_template, base_messages, base_tool_types, base_call_kwargs) →
  setup_call environ model client fn fn_args dynamic_config tools json_mode
    call_params extract = Raise e →
  (e = ValueError "Mistral currently only supports text parts."
   ∧ Exists (λ mp, unsupported mp = true) base_messages)
  ∨ (e = IndexError ∧ json_mode = true ∧ base_messages = [])
  ∨ (e = AssertionError "At least one tool must be provided for extraction."
     ∧ json_mode = false ∧ extract = true
     ∧ truthy_opt_list base_tool_types = false).
Proof.
  intros base_setup. unfold Mistral.setup_call. rewrite base_setup.
  intros [Hconv|(ms & Hms & H)]%bind_Raise.
  - left.
    destruct (decide (Forall (λ mp, unsupported mp = false) base_messages))
      as [Hall|Hex].
    + destruct (convert_loop_supported _ Hall []) as (out & Hout & _).
      unfold convert_message_params in Hconv. congruence.
    + apply not_Forall_Exists in Hex; [|intros mp; apply _].
      assert (Exists (λ mp, unsupported mp = true) base_messages) as Hex'.
      { eapply Exists_impl; [exact Hex|]. simpl. intros mp Hmp.
        by destruct (unsupported mp). }
      split; [|done].
      unfold convert_message_params in Hconv.
      rewrite (convert_loop_unsupported _ Hex' []) in Hconv.
      by injection Hconv as <-.
  - right. apply bind_Raise in H as [H|([ms' kw] & _ & [=])].
    apply mistral_mode_branch_Raise in H
      as [(-> & -> & ->)|(-> & -> & -> & Htts)].
    + left. repeat split.
      apply convert_message_params_Ok in Hms. by inversion Hms.
    + right. by repeat split.
Qed.

(** X11. In JSON mode the request always ends with a user turn, and the
    messages before the last converted one go out exactly as converted. *)
Theorem mistral_setup_call_json_mode_ends_with_user (extract : bool)
    (r : setup ToolType Client V) (ms : list message) :
  utils_setup_call fn fn_args dynamic_config tools call_params
  = (base_template, base_messages, base_tool_types, base_call_kwargs) →
  setup_call environ model client fn fn_args dynamic_config tools true
    call_params extract = Ok r →
  convert_message_params base_messages = Ok ms →
  (∃ m, last (messages r) = Some m ∧ role m = "user")
  ∧ removelast ms `prefix_of` messages r.
Proof.
  intros Hbase H Hms.
  apply (mistral_setup_call_inv _ _ _ Hbase) in H
    as (ms0 & ms' & kw & Hms0 & Hbranch & ->).
  assert (ms0 = ms) as -> by congruence. simpl.
  apply mistral_mode_branch_Ok in Hbranch
    as [(_ & _ & m & Hlast & ->)|[(Hj & _)|(Hj & _)]]; [|done..].
  case_bool_decide as Hrole.
  - split.
    + eexists. split; [apply last_snoc_Some|]. by destruct m.
    + by apply prefix_app_r.
  - split.
    + eexists. split; [apply last_snoc_Some|done].
    + apply prefix_app_r.
      destruct (exists_last (l:=ms)) as (ms1 & m1 & ->).
      * by intros ->.
      * rewrite removelast_snoc. by apply prefix_app_r.
Qed.

(** X12. Which create function comes back depends on the decorated
    function alone (asynchronous or not), and it is bound to the client
    handed in, or else to a client built from the MISTRAL_API_KEY of the
    environment, with the empty string as key when the variable is not
    set. *)
Theorem mistral_setup_call_create_fn (json_mode extract : bool)
    (r : setup ToolType Client V) :
  setup_call environ model client fn fn_args dynamic_config tools json_mode
    call_params extract = Ok r →
  ∃ c,
    create_or_stream r
    = (if fn_is_async fn then get_async_create_fn c else get_create_fn c)
    ∧ (∀ given, client = Some given → c = given)
    ∧ (client = None →
       (∀ key, environ !! "MISTRAL_API_KEY" = Some key →
               c = Mistral_client key)
       ∧ (environ !! "MISTRAL_API_KEY" = None → c = Mistral_client "")).
Proof.
  destruct (utils_setup_call fn fn_args dynamic_config tools call_params)
    as [[[pt bm] tts] kw] eqn:Hbase.
  unfold Mistral.setup_call. rewrite Hbase.
  intros (ms & _ & H)%bind_Ok.
  apply bind_Ok in H as ([ms' kw'] & _ & [= <-]). simpl.
  eexists. split; [by destruct (fn_is_async fn)|].
  destruct client as [given|].
  - split; [by intros ? [= <-] | done].
  - split; [done|]. intros _. split.
    + by intros key ->.
    + by intros ->.
Qed.

(** X13. Outside JSON mode the messages are sent exactly as converted:
    extraction and plain calls add nothing to them. *)
Theorem mistral_setup_call_messages_outside_json_mode (extract : bool)
    (r : setup ToolType Client V) :
  utils_setup_call fn fn_args dynamic_config tools call_params
  = (base_template, base_messages, base_tool_types, base_call_kwargs) →
  setup_call environ model client fn fn_args dynamic_config tools false
    call_params extract = Ok r →
  convert_message_params base_messages = Ok (messages r).
Proof.
  intros Hbase H.
  apply (mistral_setup_call_inv _ _ _ Hbase) in H
    as (ms & ms' & kw & Hms & Hbranch & ->).
  simpl.
  apply mistral_mode_branch_Ok in Hbranch
    as [(Hj & _)|[(_ & _ & _ & -> & _)|(_ & _ & -> & _)]]; done.
Qed.

End mistral_setup_more.

Lemma mistral_setup_call_sets_model_and_messages_witness :
  ∃ r,
    Scenario.mistral_setup ∅ None false
      [Mistral.BaseMessageParam "user" (Message.Str "hi")] (Some ["Book"])
      {[ "model" := Mistral.KBase unit tt ]} false true = Ok r
    ∧ Mistral.call_kwargs r !! "model"
      = Some (Mistral.KModel "mistral-large-latest")
    ∧ Mistral.call_kwargs r !! "messages"
      = Some (Mistral.KMessages (Mistral.messages r))
    ∧ Mistral.prompt_template r = Some "template"
    ∧ Mistral.tool_types r = Some ["Book"].
Proof.
  eexists. split; [reflexivity|].
  eapply mistral_setup_call_sets_model_and_messages
    with (utils_setup_call :=
            λ (_ _ _ : unit) (_ : option (list unit)) (_ : unit),
              (Some "template",
               [Mistral.BaseMessageParam "user" (Message.Str "hi")],
               Some ["Book"], {[ "model" := Mistral.KBase unit tt ]}))
         (json_mode_content := λ _, "json_content")
         (fn_is_async := λ _, false) (Mistral_client := λ api_key, api_key)
         (environ := ∅) (client := None) (fn := tt) (fn_args := tt)
         (dynamic_config := tt) (tools := None) (call_params := tt)
         (json_mode := false) (extract := true).
  - reflexivity.
  - reflexivity.
Defined.

Lemma mistral_setup_call_frame_witness :
  ∃ r,
    Scenario.mistral_setup ∅ None false
      [Mistral.BaseMessageParam "user" (Message.Str "hi")] (Some ["Book"])
      {[ "temperature" := Mistral.KBase unit tt;
         "tools" := Mistral.KBase unit tt ]} true false = Ok r
    ∧ Mistral.call_kwargs r !! "temperature"
      = ({[ "temperature" := Mistral.KBase unit tt;
            "tools" := Mistral.KBase unit tt ]}
           : gmap string (Mistral.kwarg unit)) !! "temperature".
Proof.
  eexists. split; [reflexivity|].
  eapply mistral_setup_call_frame
    with (utils_setup_call :=
            λ (_ _ _ : unit) (_ : option (list unit)) (_ : unit),
              (Some "template",
               [Mistral.BaseMessageParam "user" (Message.Str "hi")],
               Some ["Book"],
               {[ "temperature" := Mistral.KBase unit tt;
                  "tools" := Mistral.KBase unit tt ]}))
         (json_mode_content := λ _, "json_content")
         (fn_is_async := λ _, false) (Mistral_client := λ api_key, api_key)
         (environ := ∅) (client := None) (fn := tt) (fn_args := tt)
         (dynamic_config := tt) (tools := None) (call_params := tt)
         (json_mode := true) (extract := false).
  - reflexivity.
  - reflexivity.
  - discriminate.
  - discriminate.
  - intros _. split; discriminate.
  - discriminate.
Defined.

Lemma mistral_setup_call_errors_witness :
  (IndexError = ValueError "Mistral currently only supports text parts."
   ∧ Exists (λ mp, Mistral.unsupported mp = true) [])
  ∨ (IndexError = IndexError ∧ true = true
     ∧ @nil Mistral.message_param = [])
  ∨ (IndexError
     = AssertionError "At least one tool must be provided for extraction."
     ∧ true = false ∧ false = true
     ∧ truthy_opt_list (@None (list string)) = false).
Proof.
  eapply mistral_setup_call_errors
    with (utils_setup_call :=
            λ (_ _ _ : unit) (_ : option (list unit)) (_ : unit),
              (Some "template", [], None,
               (∅ : gmap string (Mistral.kwarg unit))))
         (json_mode_content := λ _, "json_content")
         (fn_is_async := λ _, false)
         (Mistral_client := λ api_key : string, api_key)
         (environ := ∅) (client := None) (fn := tt) (fn_args := tt)
         (dynamic_config := tt) (tools := None) (call_params := tt)
         (model := "mistral-large-latest").
  - reflexivity.
  - reflexivity.
Defined.

Lemma mistral_setup_call_json_mode_ends_with_user_witness :
  ∃ r,
    Scenario.mistral_setup ∅ None false
      [Mistral.BaseMessageParam "user" (Message.Str "hi");
       Mistral.Native Mistral.AssistantMessage "hello"] None ∅ true false
    = Ok r
    ∧ (∃ m, last (Mistral.messages r) = Some m ∧ Mistral.role m = "user")
    ∧ removelast [Mistral.TextMessage "user" "hi";
                  Mistral.NativeMessage Mistral.AssistantMessage "hello"]
      `prefix_of` Mistral.messages r.
Proof.
  eexists. split; [reflexivity|].
  eapply mistral_setup_call_json_mode_ends_with_user
    with (utils_setup_call :=
            λ (_ _ _ : unit) (_ : option (list unit)) (_ : unit),
              (Some "template",
               [Mistral.BaseMessageParam "user" (Message.Str "hi");
                Mistral.Native Mistral.AssistantMessage "hello"],
               @None (list string),
               (∅ : gmap string (Mistral.kwarg unit))))
         (json_mode_content := λ _, "json_content")
         (fn_is_async := λ _, false)
         (Mistral_client := λ api_key : string, api_key)
         (environ := ∅) (client := None) (fn := tt) (fn_args := tt)
         (dynamic_config := tt) (tools := None) (call_params := tt)
         (extract := false).
  - reflexivity.
  - reflexivity.
  - reflexivity.
Defined.

(** ** Vertex setup: what is kept and what JSON mode changes *)

Arguments Vertex.Setup {_ _ _ _}.
Arguments Vertex.CStr {_}.
Arguments Vertex.base_generation_config {_ _}.

Section vertex_setup_more.

Import Vertex.
Context {Fn FnArgs DynamicConfig Tool ToolType CallParams Client : Type}.
Context {MessageParam Part V : Type}.
Variable utils_setup_call :
  Fn → FnArgs → DynamicConfig → option (list Tool) → CallParams →
  option string * list MessageParam * option (list ToolType)
  * gmap string (kwarg Part V).
Variable json_mode_content : option ToolType → string.
Variable fn_is_async : Fn → bool.
Variable convert_message_params :
  list MessageParam → result (list (content Part)).
Variable _name : ToolType → string.
Variable GenerativeModel : string → Client.

Local Abbreviation setup_call :=
  (setup_call utils_setup_call json_mode_content fn_is_async
     convert_message_params _name GenerativeModel).
Local Abbreviation mode_branch := (mode_branch json_mode_content _name).

Lemma json_generation_config_Ok (kw : gmap string (kwarg Part V))
    (cfg : gmap string (config_value V)) :
  json_generation_config kw = Ok cfg →
  cfg = <["response_mime_type" := CStr "application/json"]>
          (base_generation_config kw).
Proof.
  unfold json_generation_config, base_generation_config.
  destruct (kw !! "generation_config") as [[v|f|f|md al|ms]|]; simpl;
    by intros [= <-].
Qed.

Lemma vertex_mode_branch_Ok (json_mode extract : bool)
    (tts : option (list ToolType)) (ms ms' : list (content Part))
    (kw kw' : gmap string (kwarg Part V)) :
  mode_branch json_mode extract tts ms kw = Ok (ms', kw') →
  (json_mode = true
   ∧ kw' = delete "tools"
             (<["generation_config" :=
                  KGenerationConfigDict
                    (<["response_mime_type" := CStr "application/json"]>
                       (base_generation_config kw))]> kw)
   ∧ ∃ turn_role turn_parts,
       last ms = Some (ContentDict turn_role turn_parts)
       ∧ ms' = removelast ms
               ++ [ContentDict turn_role
                     (turn_parts
                      ++ [PartStr (json_mode_content (first_tool tts))])])
  ∨ (json_mode = false ∧ extract = false ∧ ms' = ms ∧ kw' = kw).
Proof.
  unfold Vertex.mode_branch. destruct json_mode.
  - intros (cfg & Hcfg & H)%bind_Ok. left.
    apply json_generation_config_Ok in Hcfg as ->.
    apply bind_Ok in H as (m & Hm & H).
    apply bind_Ok in H as (m' & Hm' & [= <- <-]).
    unfold index_last in Hm. destruct (last ms) as [m0|] eqn:Hlast; [|done].
    injection Hm as ->. repeat split.
    destruct m as [turn_role turn_parts|turn_role sdk_parts]; [|done].
    injection Hm' as <-. exists turn_role, turn_parts. split; [done|].
    by destruct ms.
  - destruct extract.
    + by destruct tts as [[|t ts]|].
    + intros [= <- <-]. right. by repeat split.
Qed.

Variables (model : string) (client : option Client) (fn : Fn)
  (fn_args : FnArgs) (dynamic_config : DynamicConfig)
  (tools : option (list Tool)) (call_params : CallParams).

Variables (base_template : option string)
  (base_messages : list MessageParam)
  (base_tool_types : option (list ToolType))
  (base_call_kwargs : gmap string (kwarg Part V)).

Lemma vertex_setup_call_inv (json_mode extract : bool)
    (r : setup ToolType Client Part V) :
  utils_setup_call fn fn_args dynamic_config tools call_params
  = (base_template, base_messages, base_tool_types, base_call_kwargs) →
  setup_call model client fn fn_args dynamic_config tools json_mode
    call_params extract = Ok r →
  ∃ ms ms' kw,
    convert_message_params base_messages = Ok ms
    ∧ mode_branch json_mode extract base_tool_types ms base_call_kwargs
      = Ok (ms', kw)
    ∧ messages r = ms'
    ∧ call_kwargs r = <["contents" := KContents ms']> kw.
Proof.
  intros base_setup. unfold Vertex.setup_call. rewrite base_setup.
  intros (ms & Hms & H)%bind_Ok.
  apply bind_Ok in H as ([ms' kw] & Hbranch & [= <-]).
  by exists ms, ms', kw.
Qed.


(** X15. JSON mode on Vertex never adds, drops or reorders a message and
    never changes a role: the roles sent are the converted roles, the
    messages before the last go out as converted, and the last one only
    gains one part at its end. *)
Theorem vertex_setup_call_json_mode_keeps_turns (extract : bool)
    (r : setup ToolType Client Part V) (ms : list (content Part)) :
  utils_setup_call fn fn_args dynamic_config tools call_params
  = (base_template, base_messages, base_tool_types, base_call_kwargs) →
  setup_call model client fn fn_args dynamic_config tools true call_params
    extract = Ok r →
  convert_message_params base_messages = Ok ms →
  role <$> messages r = role <$> ms
  ∧ removelast (messages r) = removelast ms
  ∧ ∃ m m', last ms = Some m ∧ last (messages r) = Some m'
            ∧ parts m'
              = parts m
                ++ [PartStr (json_mode_content (first_tool base_tool_types))].
Proof.
  intros Hbase H Hms.
  apply (vertex_setup_call_inv _ _ _ Hbase) in H
    as (ms0 & ms' & kw & Hms0 & Hbranch & -> & _).
  assert (ms0 = ms) as -> by congruence.
  apply vertex_mode_branch_Ok in Hbranch
    as [(_ & _ & turn_role & turn_parts & Hlast & ->)|(Hj & _)]; [|done].
  destruct (exists_last (l:=ms)) as (ms1 & m1 & ->).
  { intros ->. done. }
  rewrite last_snoc in Hlast. injection Hlast as ->.
  rewrite !removelast_snoc. repeat split.
  - by rewrite !fmap_app.
  - eexists _, _. by rewrite !last_snoc.
Qed.

(** X16. JSON mode on Vertex sends a generation config in dictionary
    form that asks for the JSON mime type and otherwise holds exactly the
    fields of the generation config of the base setup, were it a
    dictionary or a dataclass (none when there was no config). *)
Theorem vertex_setup_call_json_mode_generation_config (extract : bool)
    (r : setup ToolType Client Part V) :
  utils_setup_call fn fn_args dynamic_config tools call_params
  = (base_template, base_messages, base_tool_types, base_call_kwargs) →
  setup_call model client fn fn_args dynamic_config tools true call_params
    extract = Ok r →
  ∃ cfg,
    call_kwargs r !! "generation_config" = Some (KGenerationConfigDict cfg)
    ∧ cfg !! "response_mime_type" = Some (CStr "application/json")
    ∧ ∀ field, field ≠ "response_mime_type" →
               cfg !! field = base_generation_config base_call_kwargs !! field.
Proof.
  intros Hbase H.
  apply (vertex_setup_call_inv _ _ _ Hbase) in H
    as (ms & ms' & kw & _ & Hbranch & _ & ->).
  apply vertex_mode_branch_Ok in Hbranch
    as [(_ & -> & _)|(Hj & _)]; [|done].
  exists (<["response_mime_type" := CStr "application/json"]>
            (base_generation_config base_call_kwargs)).
  split; [|split].
  - rewrite lookup_insert_ne by done. rewrite lookup_delete_ne by done.
    by rewrite lookup_insert_eq.
  - by rewrite lookup_insert_eq.
  - intros field Hfield. by rewrite lookup_insert_ne.
Qed.

End vertex_setup_more.


Lemma vertex_setup_call_json_mode_keeps_turns_witness :
  ∃ r,
    Scenario.vertex_setup
      [Vertex.ContentDict "user" [Vertex.PartStr "hi"];
       Vertex.ContentDict "model" [Vertex.PartStr "ok"]] None ∅ true false = Ok r
    ∧ Vertex.role (Part:=unit) <$> Vertex.messages r
      = Vertex.role (Part:=unit)
        <$> [Vertex.ContentDict "user" [Vertex.PartStr "hi"];
                         Vertex.ContentDict "model" [Vertex.PartStr "ok"]]
    ∧ removelast (Vertex.messages r)
      = removelast [Vertex.ContentDict "user" [Vertex.PartStr "hi"];
                    Vertex.ContentDict "model" [Vertex.PartStr "ok"]]
    ∧ ∃ m m',
        last [Vertex.ContentDict "user" [Vertex.PartStr "hi"];
              Vertex.ContentDict "model" [Vertex.PartStr "ok"]] = Some m
        ∧ last (Vertex.messages r) = Some m'
        ∧ Vertex.parts m'
          = Vertex.parts m ++ [Vertex.PartStr "json_content"].
Proof.
  eexists. split; [reflexivity|].
  eapply vertex_setup_call_json_mode_keeps_turns
    with (utils_setup_call :=
            λ (_ _ _ : unit) (_ : option (list unit)) (_ : unit),
              (Some "template",
               [Vertex.ContentDict "user" [Vertex.PartStr "hi"];
                Vertex.ContentDict "model" [Vertex.PartStr "ok"]],
               @None (list string),
               (∅ : gmap string (Vertex.kwarg unit unit))))
         (json_mode_content := λ _, "json_content")
         (fn_is_async := λ _, false) (convert_message_params := Ok)
         (_name := λ tool_type : string, tool_type)
         (GenerativeModel := λ model_name : string, model_name)
         (client := None) (fn := tt) (fn_args := tt)
         (dynamic_config := tt) (tools := None) (call_params := tt)
         (extract := false).
  - reflexivity.
  - reflexivity.
  - reflexivity.
Defined.

Lemma vertex_setup_call_json_mode_generation_config_witness :
  ∃ r,
    Scenario.vertex_setup [Vertex.ContentDict "user" [Vertex.PartStr "hi"]] None
      {[ "generation_config" :=
           Vertex.KGenerationConfigDataclass
             {[ "temperature" := Vertex.CStr "0.2" ]} ]} true false = Ok r
    ∧ ∃ cfg,
        Vertex.call_kwargs r !! "generation_config"
        = Some (Vertex.KGenerationConfigDict cfg)
        ∧ cfg !! "response_mime_type" = Some (Vertex.CStr "application/json")
        ∧ ∀ field, field ≠ "response_mime_type" →
            cfg !! field
            = Vertex.base_generation_config
                ({[ "generation_config" :=
                      Vertex.KGenerationConfigDataclass
                        {[ "temperature" := Vertex.CStr "0.2" ]} ]}
                   : gmap string (Vertex.kwarg unit unit)) !! field.
Proof.
  eexists. split; [reflexivity|].
  eapply vertex_setup_call_json_mode_generation_config
    with (utils_setup_call :=
            λ (_ _ _ : unit) (_ : option (list unit)) (_ : unit),
              (Some "template", [Vertex.ContentDict "user" [Vertex.PartStr "hi"]],
               @None (list string),
               ({[ "generation_config" :=
                     Vertex.KGenerationConfigDataclass
                       {[ "temperature" := Vertex.CStr "0.2" ]} ]}
                  : gmap string (Vertex.kwarg unit unit))))
         (json_mode_content := λ _, "json_content")
         (fn_is_async := λ _, false) (convert_message_params := Ok)
         (_name := λ tool_type : string, tool_type)
         (GenerativeModel := λ model_name : string, model_name)
         (client := None) (fn := tt) (fn_args := tt)
         (dynamic_config := tt) (tools := None) (call_params := tt)
         (extract := false).
  - reflexivity.
  - reflexivity.
Defined.

(** ** The chat completion wrapper: edges of the accessors *)

Arguments ChatTypes.choices {_}.
Arguments ChatTypes.choice {_}.
Arguments ChatTypes.message {_}.
Arguments ChatTypes.content {_}.
Arguments ChatTypes.__str__ {_}.

Section chat_completion_edges.

Import ChatTypes.
Context {OpenAITool : Type}.
Implicit Types (tts : list (tool_type OpenAITool)).
Implicit Types (tcs : list ChatCompletionMessageToolCall).
Implicit Types (self : OpenAIChatCompletion OpenAITool).

Lemma extract_loop_length tcs tts (acc out : list OpenAITool) :
  extract_loop acc tcs tts = Ok out →
  length out ≤ length acc + length tcs
  ∧ ((∀ tc, tc ∈ tcs → names_tool_type tts tc = true) →
     length out = length acc + length tcs).
Proof.
  revert acc. induction tcs as [|tc tcs IH]; intros acc; simpl.
  - intros [= <-]. split; [lia|]. intros _. lia.
  - intros (found & Hfound & H)%bind_Ok. destruct found as [tool|].
    + apply IH in H as [Hle Heq]. rewrite length_app in Hle, Heq. simpl in *.
      split; [lia|]. intros Hall. rewrite Heq; [lia|].
      intros tc' Hin. apply Hall. by right.
    + apply IH in H as [Hle Heq]. split; [lia|]. intros Hall.
      rewrite match_tool_type_present in Hfound by (apply Hall; by left).
      by apply bind_Ok in Hfound as (t & _ & [=]).
Qed.

(** X17. [tools] is [None] exactly when there is no tool type (the list
    is [None] or empty; the choices are then not even read) or the first
    choice carries no tool call ([None] or empty). *)
Theorem tools_is_None self :
  tools self = Ok None
  ↔ truthy_opt_list (tool_types self) = false
    ∨ ∃ calls, tool_calls self = Ok calls ∧ truthy_opt_list calls = false.
Proof.
  unfold tools.
  destruct (truthy_opt_list (tool_types self)) eqn:Htts; simpl.
  - destruct (tool_calls self) as [calls|e] eqn:Hcalls; simpl.
    + destruct (truthy_opt_list calls) eqn:Htruthy; simpl.
      * split.
        -- by intros (out & _ & [=])%bind_Ok.
        -- intros [[=]|(calls' & [= <-] & Hfalsy)]. congruence.
      * split; [|done]. intros _. right. by exists calls.
    + split; [done|]. by intros [[=]|(calls' & [=] & _)].
  - split; [|done]. intros _. by left.
Qed.

(** X18. A completion without choices: every accessor that reads the
    0th choice raises [IndexError], and so do [tools] and [tool] as soon
    as a tool type is active; without tool types they return [None]
    without reading the choices. *)
Theorem accessors_without_choices
    (tool_types : option (list (tool_type OpenAITool))) :
  let self :=
    {| completion := {| completion_choices := [] |};
       tool_types := tool_types |} in
  choice self = Raise IndexError
  ∧ message self = Raise IndexError
  ∧ content self = Raise IndexError
  ∧ tool_calls self = Raise IndexError
  ∧ tools self
    = (if truthy_opt_list tool_types then Raise IndexError else Ok None)
  ∧ tool self
    = (if truthy_opt_list tool_types then Raise IndexError else Ok None).
Proof.
  intros self. repeat split; try done.
  - unfold tools. simpl. by destruct (truthy_opt_list tool_types).
  - unfold tool, tools. simpl. by destruct (truthy_opt_list tool_types).
Qed.

(** X19. [tool] is the first element of [tools]: [None] when [tools] is
    [None] or empty, and failing exactly as [tools] fails. *)
Theorem tool_is_first_tool self :
  tool self = (resolved ← tools self; Ok (resolved ≫= head)).
Proof.
  unfold tool. destruct (tools self) as [[[|t ts]|]|e]; done.
Qed.

(** X20. [tools] never returns more tools than the provider sent tool
    calls, and returns one per call when every call names an active tool
    type. *)
Theorem tools_at_most_one_per_call self
    (resolved : list OpenAITool) :
  tools self = Ok (Some resolved) →
  ∃ tts tcs,
    tool_types self = Some tts ∧ tool_calls self = Ok (Some tcs)
    ∧ length resolved ≤ length tcs
    ∧ ((∀ tc, tc ∈ tcs → name (function tc) ∈ __name__ <$> tts) →
       length resolved = length tcs).
Proof.
  unfold tools.
  destruct (tool_types self) as [[|tt tts]|] eqn:Htts;
    cbn [truthy_opt_list negb default]; try done.
  intros (calls & Hcalls & H)%bind_Ok.
  destruct calls as [[|tc tcs]|];
    cbn [truthy_opt_list negb default] in H; try done.
  apply bind_Ok in H as (out & Hloop & [= <-]).
  apply extract_loop_length in Hloop as [Hle Heq].
  exists (tt :: tts), (tc :: tcs). repeat split; [done|done|].
  intros Hall. apply Heq. intros tc' Hin. unfold names_tool_type.
  by rewrite bool_decide_eq_true_2 by by apply Hall.
Qed.

(** X21. Printing: [str] of a completion is its content and raises
    [TypeError] when the content is [None], since [__str__] then returns
    [None]; [str] of a chunk is its content with [None] printed as the
    empty string. *)
Theorem str_of_completion_and_chunk self
    (chunk : OpenAIChatCompletionChunk.OpenAIChatCompletionChunk) :
  (__str__ self ≫= builtin_str)
  = (c ← content self;
     match c with Some s => Ok s | None => Raise TypeError end)
  ∧ OpenAIChatCompletionChunk.__str__ chunk
    = (c ← OpenAIChatCompletionChunk.content chunk; Ok (default "" c)).
Proof.
  split.
  - unfold __str__. by destruct (content self) as [[s|]|e].
  - unfold OpenAIChatCompletionChunk.__str__.
    by destruct (OpenAIChatCompletionChunk.content chunk) as [[s|]|e].
Qed.

Lemma match_tool_type_app (tc : ChatCompletionMessageToolCall) tts
    (later : list (tool_type OpenAITool)) :
  match_tool_type tc (tts ++ later)
  = (if names_tool_type tts tc then match_tool_type tc tts
     else match_tool_type tc later).
Proof.
  induction tts as [|tt tts IH]; [done|].
  rewrite names_tool_type_cons. simpl. by case_bool_decide.
Qed.

Lemma extract_loop_shadowed tcs tts (later : list (tool_type OpenAITool))
    (acc : list OpenAITool) :
  (∀ tt, tt ∈ later → __name__ tt ∈ __name__ <$> tts) →
  extract_loop acc tcs (tts ++ later) = extract_loop acc tcs tts.
Proof.
  intros Hlater. revert acc. induction tcs as [|tc tcs IH]; intros acc; [done|].
  simpl. rewrite match_tool_type_app.
  destruct (names_tool_type tts tc) eqn:Hknown.
  - destruct (match_tool_type tc tts) as [[tool|]|e]; simpl; by rewrite ?IH.
  - rewrite (match_tool_type_absent tc tts Hknown).
    rewrite match_tool_type_absent; [simpl; apply IH|].
    unfold names_tool_type in *. apply bool_decide_eq_false_2.
    apply bool_decide_eq_false_1 in Hknown.
    intros (tt & Hname & Hin)%list_elem_of_fmap.
    apply Hknown. rewrite Hname. by apply Hlater.
Qed.

(** X22. Tool types listed after others of the same name are never used:
    appending them to the active tool list changes nothing in what
    [tools] returns or raises, since a call is resolved by the first tool
    type carrying its name. *)
Theorem tools_later_namesakes_shadowed (response : ChatCompletion) tts
    (later : list (tool_type OpenAITool)) :
  (∀ tt, tt ∈ later → __name__ tt ∈ __name__ <$> tts) →
  tools {| completion := response; tool_types := Some (tts ++ later) |}
  = tools {| completion := response; tool_types := Some tts |}.
Proof.
  intros Hlater. unfold tools. cbn [tool_types].
  change (tool_calls {| completion := response;
                        tool_types := Some (tts ++ later) |})
    with (tool_calls {| completion := response; tool_types := Some tts |}).
  destruct tts as [|tt tts].
  - destruct later as [|tt later]; [done|].
    exfalso. specialize (Hlater tt (list_elem_of_here _ _)).
    by apply elem_of_nil in Hlater.
  - cbn [app truthy_opt_list negb].
    destruct (tool_calls _) as [[[|tc tcs]|]|e]; try done.
    cbn [mbind result_bind truthy_opt_list negb default].
    unfold Datatypes.id. rewrite app_comm_cons.
    by rewrite (extract_loop_shadowed (tc :: tcs) (tt :: tts) later []).
Qed.

End chat_completion_edges.

Lemma tools_at_most_one_per_call_witness :
  ∃ tts tcs,
    ChatTypes.tool_types (Scenario.response Scenario.mixed_calls) = Some tts
    ∧ ChatTypes.tool_calls (Scenario.response Scenario.mixed_calls)
      = Ok (Some tcs)
    ∧ length ["Dune"; "Emma"] ≤ length tcs
    ∧ ((∀ tc, tc ∈ tcs →
          ChatTypes.name (ChatTypes.function tc) ∈ ChatTypes.__name__ <$> tts) →
       length ["Dune"; "Emma"] = length tcs).
Proof.
  apply (tools_at_most_one_per_call (Scenario.response Scenario.mixed_calls)
           ["Dune"; "Emma"]).
  reflexivity.
Defined.

(** ** Response chunks: several choices, several event kinds *)

Section chunk_edges.

Context {Number : Type}.

(** X23. An OpenAI chunk with several choices: [content] is the content
    of the first choice alone, whatever the others hold, while
    [finish_reasons] collects over all choices in order. *)
Theorem openai_chunk_first_choice_and_all_choices
    (i m : string) (u : OpenAIChunk.attribute (option OpenAIChunk.CompletionUsage))
    (first : OpenAIChunk.Choice) (others others' : list OpenAIChunk.Choice) :
  let wrap choices :=
    {| OpenAIChunk.chunk :=
         {| OpenAIChunk.chunk_id := i;
            OpenAIChunk.chunk_choices := choices;
            OpenAIChunk.chunk_model := m;
            OpenAIChunk.chunk_usage := u |} |} in
  OpenAIChunk.content (wrap (first :: others))
  = OpenAIChunk.content (wrap (first :: others'))
  ∧ OpenAIChunk.finish_reasons (wrap (others ++ others'))
    = (l ← OpenAIChunk.finish_reasons (wrap others);
       l' ← OpenAIChunk.finish_reasons (wrap others');
       Ok (l ++ l')).
Proof.
  intros wrap. split; [done|].
  unfold OpenAIChunk.finish_reasons. simpl. f_equal. apply omap_app.
Qed.

(** X24. A Cohere event has one kind: a chunk with text carries no
    finish reason, no id and no usage, and a chunk with usage or a finish
    reason carries no text. *)
Theorem cohere_chunk_text_excludes_the_rest
    (c : CohereChunk.CohereCallResponseChunk Number) :
  (CohereChunk.content c ≠ Ok "" →
   CohereChunk.finish_reasons c = Ok None
   ∧ CohereChunk.id c = Ok None
   ∧ CohereChunk.usage c = Ok None
   ∧ CohereChunk.input_tokens c = Ok None
   ∧ CohereChunk.output_tokens c = Ok None)
  ∧ (CohereChunk.usage c ≠ Ok None ∨ CohereChunk.finish_reasons c ≠ Ok None →
     CohereChunk.content c = Ok "").
Proof.
  destruct c as [[g|t|f r|ev]]; split; try done.
  by intros [H|H].
Qed.

End chunk_edges.

(** ** The output parser of the example script *)

Section parse_recommendation.

Import Examples.

Lemma string_app_cons (a : Ascii.ascii) (s1 s2 : string) :
  String a s1 +:+ s2 = String a (s1 +:+ s2).
Proof. done. Qed.

Lemma startswith_drop (prefix s : string) :
  startswith prefix s = true →
  s = prefix +:+ drop_chars (String.length prefix) s.
Proof.
  revert s. induction prefix as [|a prefix IH]; intros s; [by destruct s|].
  destruct s as [|b s]; [done|]. simpl.
  case_bool_decide as Hab; [|done]. subst b. intros H.
  rewrite string_app_cons. f_equal. by apply IH.
Qed.

Lemma split_loop_nonempty (sep : string) (s : string) :
  ∀ skip piece, split_loop sep skip piece s ≠ [].
Proof.
  induction s as [|c s IH]; intros skip piece; simpl; [done|].
  destruct skip as [|k]; [|apply IH].
  destruct (startswith sep (String c s)); [done | apply IH].
Qed.

Lemma join_cons (sep piece : string) (rest : list string) :
  rest ≠ [] → join sep (piece :: rest) = piece +:+ sep +:+ join sep rest.
Proof. by destruct rest. Qed.

(** Joining the pieces gives the string back. *)
Lemma join_split_loop (sep : string) (s : string) :
  sep ≠ "" →
  ∀ skip piece,
    join sep (split_loop sep skip piece s) = piece +:+ drop_chars skip s.
Proof.
  intros Hsep. induction s as [|c s IH]; intros skip piece.
  - simpl. destruct skip; simpl; by rewrite string_app_nil_r.
  - destruct skip as [|k]; [|apply IH].
    cbn [split_loop drop_chars].
    destruct (startswith sep (String c s)) eqn:Hstart.
    + rewrite join_cons by apply split_loop_nonempty. rewrite IH.
      change ("" +:+ ?x) with x. f_equal.
      destruct sep as [|a sep]; [done|].
      apply startswith_drop in Hstart.
      symmetry. etrans; [exact Hstart|]. simpl. by rewrite Nat.sub_0_r.
    + rewrite IH. simpl. rewrite string_app_assoc. by rewrite string_app_cons.
Qed.

(** X25. The output parser of the example: when it returns a title and
    an author, the response content is exactly the title, [" by "] and the
    author; when the content holds no [" by "] at all, it raises
    [ValueError]. *)
Theorem parse_recommendation_splits_on_by (content : string) :
  (∀ title author,
     parse_recommendation content = Ok (title, author) →
     content = title +:+ " by " +:+ author)
  ∧ ((∀ before after, content ≠ before +:+ " by " +:+ after) →
     ∃ msg, parse_recommendation content = Raise (ValueError msg)).
Proof.
  assert (join " by " (split_loop " by " 0 "" content) = content) as Hjoin.
  { by rewrite join_split_loop. }
  unfold parse_recommendation, split. simpl. split.
  - intros title author H.
    destruct (split_loop " by " 0 "" content) as [|t [|a [|p ps]]];
      try done.
    injection H as -> ->. by rewrite <- Hjoin.
  - intros Hnone.
    destruct (split_loop " by " 0 "" content) as [|t [|a ps]] eqn:Hsplit.
    + by eexists.
    + by eexists.
    + exfalso. apply (Hnone t (join " by " (a :: ps))).
      rewrite <- Hjoin. by rewrite join_cons.
Qed.

Example parse_recommendation_title_author :
  parse_recommendation "The Name of the Wind by Patrick Rothfuss"
  = Ok ("The Name of the Wind", "Patrick Rothfuss").
Proof. reflexivity. Qed.

Example parse_recommendation_two_separators :
  parse_recommendation "Stand by Me by Stephen King"
  = Raise (ValueError "too many values to unpack (expected 2)").
Proof. reflexivity. Qed.

Example parse_recommendation_no_separator :
  parse_recommendation "Dune"
  = Raise (ValueError "not enough values to unpack (expected 2, got 1)").
Proof. reflexivity. Qed.

End parse_recommendation.

Lemma mistral_setup_call_create_fn_witness :
  ∃ r,
    Scenario.mistral_setup {[ "MISTRAL_API_KEY" := "secret" ]} None true
      [Mistral.BaseMessageParam "user" (Message.Str "hi")] None ∅ false false
    = Ok r
    ∧ ∃ c,
        Mistral.create_or_stream r
        = (if true then Mistral.get_async_create_fn c
           else Mistral.get_create_fn c)
        ∧ (∀ given, @None string = Some given → c = given)
        ∧ (@None string = None →
           (∀ key,
              ({[ "MISTRAL_API_KEY" := "secret" ]} : gmap string string)
                !! "MISTRAL_API_KEY" = Some key → c = key)
           ∧ (({[ "MISTRAL_API_KEY" := "secret" ]} : gmap string string)
                !! "MISTRAL_API_KEY" = None → c = "")).
Proof.
  eexists. split; [reflexivity|].
  eapply mistral_setup_call_create_fn
    with (utils_setup_call :=
            λ (_ _ _ : unit) (_ : option (list unit)) (_ : unit),
              (Some "template",
               [Mistral.BaseMessageParam "user" (Message.Str "hi")],
               @None (list string),
               (∅ : gmap string (Mistral.kwarg unit))))
         (json_mode_content := λ _, "json_content")
         (fn_is_async := λ _, true)
         (Mistral_client := λ api_key : string, api_key)
         (environ := {[ "MISTRAL_API_KEY" := "secret" ]})
         (model := "mistral-large-latest")
         (client := None) (fn := tt) (fn_args := tt)
         (dynamic_config := tt) (tools := None) (call_params := tt)
         (json_mode := false) (extract := false).
  reflexivity.
Defined.

Lemma mistral_setup_call_messages_outside_json_mode_witness :
  ∃ r,
    Scenario.mistral_setup ∅ None false
      [Mistral.BaseMessageParam "user"
         (Message.Parts [Message.TextPart "hi"])] (Some ["Book"]) ∅
      false true = Ok r
    ∧ Mistral.convert_message_params
        [Mistral.BaseMessageParam "user"
           (Message.Parts [Message.TextPart "hi"])]
      = Ok (Mistral.messages r).
Proof.
  eexists. split; [reflexivity|].
  eapply mistral_setup_call_messages_outside_json_mode
    with (utils_setup_call :=
            λ (_ _ _ : unit) (_ : option (list unit)) (_ : unit),
              (Some "template",
               [Mistral.BaseMessageParam "user"
                  (Message.Parts [Message.TextPart "hi"])],
               Some ["Book"],
               (∅ : gmap string (Mistral.kwarg unit))))
         (json_mode_content := λ _, "json_content")
         (fn_is_async := λ _, false)
         (Mistral_client := λ api_key : string, api_key)
         (environ := ∅) (model := "mistral-large-latest")
         (client := None) (fn := tt) (fn_args := tt)
         (dynamic_config := tt) (tools := None) (call_params := tt)
         (extract := true).
  - reflexivity.
  - reflexivity.
Defined.

Lemma tools_later_namesakes_shadowed_witness :
  ChatTypes.tools
    {| ChatTypes.completion :=
         ChatTypes.completion (Scenario.response Scenario.mixed_calls);
       ChatTypes.tool_types :=
         Some ([Scenario.recommend_book] ++ [Scenario.recommend_book_again])
    |}
  = ChatTypes.tools
      {| ChatTypes.completion :=
           ChatTypes.completion (Scenario.response Scenario.mixed_calls);
         ChatTypes.tool_types := Some [Scenario.recommend_book] |}.
Proof.
  apply (tools_later_namesakes_shadowed
           (ChatTypes.completion (Scenario.response Scenario.mixed_calls))
           [Scenario.recommend_book] [Scenario.recommend_book_again]).
  intros tt Hin. apply list_elem_of_singleton in Hin. subst tt.
  apply list_elem_of_singleton. reflexivity.
Defined.

Example tools_first_namesake_wins :
  ChatTypes.tools
    {| ChatTypes.completion :=
         ChatTypes.completion (Scenario.response Scenario.mixed_calls);
       ChatTypes.tool_types :=
         Some [Scenario.recommend_book_again; Scenario.recommend_book] |}
  = Ok (Some ["shadowed"; "shadowed"]).
Proof. reflexivity. Qed.
